(** * Horizon syspanel "projects" views: a shallow embedding

    The development follows [horizon/dashboards/syspanel/projects/views.py].
    Python objects fetched from the identity/compute client are records with
    an [id] and a finite map of further attributes; dictionaries are [gmap]s
    keyed by strings; view methods are computations in a state-and-exception
    monad whose state holds what a request can observe: the flash messages,
    the workflow step errors, the log of calls issued to the external client
    and the attributes the views cache on [self]. *)

From Stdlib Require Import NArith Ascii String Sorted Permutation.
From stdpp Require Import base option list gmap strings.

Local Open Scope string_scope.
Local Open Scope list_scope.

(** ** Ordering of identifiers

    Identifiers are Python 2 byte strings; [<=] on them is the lexicographic
    comparison of their bytes, which is [String.leb]. *)

Module StrOrd.

Definition le (a b : string) : Prop := String.leb a b = true.
Definition ge (a b : string) : Prop := le b a.

End StrOrd.

(** ** The built-in [list.sort(key=..., reverse=...)]

    CPython's sort is stable.  With [reverse=True] it reverses the list,
    sorts it in ascending order and reverses the outcome, which keeps the
    original order among elements whose keys are equal. *)

Section ListSort.
Context {A : Type} (key : A -> string).

Fixpoint insert_by (x : A) (l : list A) : list A :=
  match l with
  | [] => [x]
  | y :: l' =>
      if String.leb (key x) (key y) then x :: y :: l'
      else y :: insert_by x l'
  end.

Fixpoint sort_asc (l : list A) : list A :=
  match l with
  | [] => []
  | x :: l' => insert_by x (sort_asc l')
  end.

Definition list_sort (reverse : bool) (l : list A) : list A :=
  if reverse then rev (sort_asc (rev l)) else sort_asc l.

Definition key_le (x y : A) : Prop := StrOrd.le (key x) (key y).
Definition key_ge (x y : A) : Prop := StrOrd.ge (key x) (key y).

End ListSort.

(** ** Python values and the objects returned by the client *)

Inductive value : Type :=
| VNone
| VBool (b : bool)
| VInt (n : Z)
| VStr (s : string).

#[global] Instance value_eq_dec : EqDecision value.
Proof. solve_decision. Defined.

(** A tenant, user, role or quota set: its [id] and its other attributes. *)
Record obj : Type := Obj { id : string; attrs : gmap string value }.

#[global] Instance obj_eq_dec : EqDecision obj.
Proof. solve_decision. Defined.

(** [getattr(o, name, default)] *)
Definition getattr (o : obj) (name : string) (dflt : value) : value :=
  if String.eqb name "id" then VStr (id o)
  else match attrs o !! name with Some v => v | None => dflt end.

Arguments getattr : simpl never.

(** [getattr] on a reference that may be [None], which has no attributes
    of interest. *)
Definition getattr_opt (o : option obj) (name : string) (dflt : value) : value :=
  match o with
  | Some o' => getattr o' name dflt
  | None => dflt
  end.

(** What a context or keyword-argument dictionary can hold. *)
Inductive item : Type :=
| IVal (v : value)
| IObj (o : obj)
| IList (l : list obj).

(** [django.core.urlresolvers.reverse]: the target is kept symbolic, as the
    name of the URL pattern and its positional arguments. *)
Record url : Type := Url { url_name : string; url_args : list string }.

Definition reverse (viewname : string) (args : list string) : url :=
  Url viewname args.

(** ** Exceptions, outcomes and the monad of view code *)

Inductive exn : Type :=
| ClientError (what : string)
| Http302 (location : url)
| AttributeError (name : string)
| UnboundLocalError (name : string).

Inductive outcome (A : Type) : Type :=
| Return (a : A)
| Raise (e : exn).

Arguments Return {A} a.
Arguments Raise {A} e.

Definition is_return {A} (r : outcome A) : bool :=
  match r with Return _ => true | Raise _ => false end.

Definition Py (S A : Type) : Type := S -> outcome A * S.

Definition ret {S A} (a : A) : Py S A := fun s => (Return a, s).

Definition raise {S A} (e : exn) : Py S A := fun s => (Raise e, s).

Definition bind {S A B} (m : Py S A) (k : A -> Py S B) : Py S B :=
  fun s =>
    match m s with
    | (Return a, s') => k a s'
    | (Raise e, s') => (Raise e, s')
    end.

Notation "x <- m ;; k" := (bind m (fun x => k))
  (at level 100, m at next level, right associativity).
Notation "m ;; k" := (bind m (fun _ => k))
  (at level 100, right associativity).

(** [try: body  except: handler].  A bare [except] catches every exception;
    the handler runs in the state the body left behind. *)
Definition try_except {S A} (body : Py S A) (handler : exn -> Py S A) : Py S A :=
  fun s =>
    match body s with
    | (Return a, s') => (Return a, s')
    | (Raise e, s') => handler e s'
    end.

Fixpoint for_each {S A} (l : list A) (body : A -> Py S unit) : Py S unit :=
  match l with
  | [] => ret tt
  | x :: l' => body x ;; for_each l' body
  end.

Arguments for_each : simpl never.

(** ** The external client

    Every call is answered by an oracle that sees the calls issued so far,
    so the same call may be answered differently when it is repeated.  The
    log records each call together with whether it returned. *)

Inductive api_call : Type :=
| KeystoneTenantGet (tenant_id : string)
| KeystoneTenantList
| KeystoneUserList (tenant_id : option string)
| KeystoneRoleList
| KeystoneGetDefaultRole
| TenantQuotaDefaults (tenant_id : string)
| TenantGet (tenant_id : string)
| TenantQuotaGet (tenant_id : string).

#[global] Instance api_call_eq_dec : EqDecision api_call.
Proof. solve_decision. Defined.

Definition api_event : Type := api_call * bool.

Record Api : Type := {
  keystone_tenant_get : list api_event -> string -> outcome obj;
  keystone_tenant_list : list api_event -> outcome (list obj);
  keystone_user_list : list api_event -> option string -> outcome (list obj);
  keystone_role_list : list api_event -> outcome (list obj);
  keystone_get_default_role : list api_event -> outcome (option obj);
  tenant_quota_defaults : list api_event -> string -> outcome obj;
  tenant_get : list api_event -> string -> outcome obj;
  tenant_quota_get : list api_event -> string -> outcome obj
}.

(** ** Request-scoped state *)

(** The dictionary cached by [UsersView._get_shared_data]. *)
Record shared_data : Type := SharedData {
  sd_tenant : obj;
  sd_all_users : list obj;
  sd_tenant_users : list obj
}.

Record state : Type := State {
  messages : list string;
  step_errors : list (string * string);
  api_log : list api_event;
  _object : option obj;
  _shared_data : option shared_data
}.

Definition set_messages (ms : list string) (s : state) : state :=
  State ms (step_errors s) (api_log s) (_object s) (_shared_data s).

Definition set_step_errors (es : list (string * string)) (s : state) : state :=
  State (messages s) es (api_log s) (_object s) (_shared_data s).

Definition set_api_log (l : list api_event) (s : state) : state :=
  State (messages s) (step_errors s) l (_object s) (_shared_data s).

Definition set__object (o : obj) : Py state unit :=
  fun s =>
    (Return tt,
     State (messages s) (step_errors s) (api_log s) (Some o) (_shared_data s)).

Definition set__shared_data (d : shared_data) : Py state unit :=
  fun s =>
    (Return tt,
     State (messages s) (step_errors s) (api_log s) (_object s) (Some d)).

Definition gets {A} (f : state -> A) : Py state A := fun s => (Return (f s), s).

(** Reading an attribute of [self] that may not have been set. *)
Definition read_attr {A} (f : state -> option A) (name : string) : Py state A :=
  fun s =>
    match f s with
    | Some a => (Return a, s)
    | None => (Raise (AttributeError name), s)
    end.

(** Local variables that a [try] body updates before it may raise live in
    a frame next to the request state. *)
Definition lift {L A} (m : Py state A) : Py (L * state) A :=
  fun ls => let (r, s') := m ls.2 in (r, (ls.1, s')).

Definition get_local {L} : Py (L * state) L := fun ls => (Return ls.1, ls).

Definition with_local {L A} (init : L) (m : Py (L * state) A) : Py state A :=
  fun s => let (r, ls) := m (init, s) in (r, ls.2).

(** [d[k] = v] on the dictionary held in the frame. *)
Definition setitem (k : string) (v : value) : Py (gmap string value * state) unit :=
  fun ls => (Return tt, (<[k := v]> ls.1, ls.2)).

(** Issue a call: ask the oracle and log the call with its success. *)
Definition call {A} (c : api_call) (answer : list api_event -> outcome A)
  : Py state A :=
  fun s =>
    let r := answer (api_log s) in
    (r, set_api_log (api_log s ++ [(c, is_return r)]) s).

(** ** The framework around the views *)

(** [horizon.exceptions.handle(request, message, redirect=...)] is called
    inside an [except] block; it sees the exception being handled and works
    on the messages of the request. *)
Definition handler : Type :=
  exn -> string -> option url -> list string -> outcome unit * list string.

(** Modelled from the spec: [horizon.exceptions.handle] is not part of the
    sources at hand.  A failure is "converted to a user-facing flash message,
    and either the view continues with degraded/empty data or redirects to a
    safe parent listing page": the message is recorded, and the call
    returns when no redirect is given and raises the redirect otherwise. *)
Definition spec_handle : handler :=
  fun _ message redirect flash =>
    (match redirect with
     | Some location => Raise (Http302 location)
     | None => Return tt
     end,
     flash ++ [message]).

(** Modelled from the spec: [WorkflowView.add_error_to_step] is not part of
    the sources at hand.  It surfaces a "step-scoped validation error": the
    message is attached to the named step of the workflow. *)
Definition add_error_to_step (error_msg step : string) : Py state unit :=
  fun s => (Return tt, set_step_errors (step_errors s ++ [(step, error_msg)]) s).

Record url_kwargs : Type := { kw_tenant_id : string; kw_user_id : string }.

(** What a view instance is given: the client, the error handler, the URL
    arguments, the tenant of the logged-in user, and what the framework's
    base classes return for [get_initial], [get_context_data] and
    [get_form_kwargs]. *)
Record view : Type := {
  api : Api;
  handle : handler;
  kwargs : url_kwargs;
  request_user_tenant_id : string;
  super_get_initial : gmap string value;
  super_get_context_data : gmap string item;
  super_get_form_kwargs : gmap string item
}.

Definition exceptions_handle (self : view) (e : exn) (message : string)
    (redirect : option url) : Py state unit :=
  fun s =>
    let (r, flash) := handle self e message redirect (messages s) in
    (r, set_messages flash s).

Definition api_keystone_tenant_get (self : view) (tenant_id : string) : Py state obj :=
  call (KeystoneTenantGet tenant_id)
       (fun log => keystone_tenant_get (api self) log tenant_id).

Definition api_keystone_tenant_list (self : view) : Py state (list obj) :=
  call KeystoneTenantList (keystone_tenant_list (api self)).

Definition api_keystone_user_list (self : view) (tenant_id : option string)
  : Py state (list obj) :=
  call (KeystoneUserList tenant_id)
       (fun log => keystone_user_list (api self) log tenant_id).

Definition api_keystone_role_list (self : view) : Py state (list obj) :=
  call KeystoneRoleList (keystone_role_list (api self)).

Definition api_keystone_get_default_role (self : view) : Py state (option obj) :=
  call KeystoneGetDefaultRole (keystone_get_default_role (api self)).

Definition api_tenant_quota_defaults (self : view) (tenant_id : string) : Py state obj :=
  call (TenantQuotaDefaults tenant_id)
       (fun log => tenant_quota_defaults (api self) log tenant_id).

Definition api_tenant_get (self : view) (tenant_id : string) : Py state obj :=
  call (TenantGet tenant_id) (fun log => tenant_get (api self) log tenant_id).

Definition api_tenant_quota_get (self : view) (tenant_id : string) : Py state obj :=
  call (TenantQuotaGet tenant_id)
       (fun log => tenant_quota_get (api self) log tenant_id).

(** ** The views *)

Definition QUOTA_FIELDS : list string :=
  ["metadata_items";
   "cores";
   "instances";
   "injected_files";
   "injected_file_content_bytes";
   "volumes";
   "gigabytes";
   "ram";
   "floating_ips"].

Definition PROJECT_INFO_FIELDS : list string :=
  ["name";
   "description";
   "enabled"].

(** *** [TenantContextMixin] *)

Definition TenantContextMixin_get_object (self : view) : Py state obj :=
  cached <- gets _object ;;
  match cached with
  | Some _ => ret tt
  | None =>
      let tenant_id := kw_tenant_id (kwargs self) in
      try_except
        (o <- api_keystone_tenant_get self tenant_id ;;
         set__object o)
        (fun e =>
           let redirect := reverse "horizon:syspanel:projects:index" [] in
           exceptions_handle self e
             "Unable to retrieve project information." (Some redirect))
  end ;;
  read_attr _object "_object".

Definition TenantContextMixin_get_context_data (self : view)
  : Py state (gmap string item) :=
  let context := super_get_context_data self in
  tenant <- TenantContextMixin_get_object self ;;
  ret (<["tenant" := IObj tenant]> context).

(** *** [IndexView] *)

Definition IndexView_get_data (self : view) : Py state (list obj) :=
  let tenants := [] in
  tenants <- try_except
               (api_keystone_tenant_list self)
               (fun e =>
                  exceptions_handle self e
                    "Unable to retrieve project list." None ;;
                  ret tenants) ;;
  ret (list_sort id true tenants).

(** *** [UsersView] *)

Definition UsersView__get_shared_data (self : view) : Py state shared_data :=
  let tenant_id := kw_tenant_id (kwargs self) in
  cached <- gets _shared_data ;;
  match cached with
  | Some _ => ret tt
  | None =>
      try_except
        (tenant <- api_keystone_tenant_get self tenant_id ;;
         all_users <- api_keystone_user_list self None ;;
         tenant_users <- api_keystone_user_list self (Some tenant_id) ;;
         set__shared_data (SharedData tenant all_users tenant_users))
        (fun e =>
           let redirect := reverse "horizon:syspanel:projects:index" [] in
           exceptions_handle self e
             "Unable to retrieve users." (Some redirect))
  end ;;
  read_attr _shared_data "_shared_data".

Definition UsersView_get_tenant_users_data (self : view) : Py state (list obj) :=
  d <- UsersView__get_shared_data self ;;
  ret (sd_tenant_users d).

Definition UsersView_get_add_users_data (self : view) : Py state (list obj) :=
  d1 <- UsersView__get_shared_data self ;;
  let tenant_users := sd_tenant_users d1 in
  d2 <- UsersView__get_shared_data self ;;
  let all_users := sd_all_users d2 in
  let tenant_user_ids := map id tenant_users in
  ret (filter (fun u => id u ∉ tenant_user_ids) all_users).

Definition UsersView_get_context_data (self : view) : Py state (gmap string item) :=
  let context := super_get_context_data self in
  d <- UsersView__get_shared_data self ;;
  ret (<["tenant" := IObj (sd_tenant d)]> context).

(** *** [AddUserView] *)

Definition AddUserView_get_context_data (self : view) : Py state (gmap string item) :=
  context <- TenantContextMixin_get_context_data self ;;
  let context := <["tenant_id" := IVal (VStr (kw_tenant_id (kwargs self)))]> context in
  let context := <["user_id" := IVal (VStr (kw_user_id (kwargs self)))]> context in
  ret context.

Definition AddUserView_get_form_kwargs (self : view) : Py state (gmap string item) :=
  let kwargs' := super_get_form_kwargs self in
  roles <- try_except
             (roles <- api_keystone_role_list self ;;
              ret (Some roles))
             (fun e =>
                let redirect := reverse "horizon:syspanel:projects:users"
                                        [kw_tenant_id (kwargs self)] in
                exceptions_handle self e
                  "Unable to retrieve roles." (Some redirect) ;;
                ret None) ;;
  match roles with
  | None => raise (UnboundLocalError "roles")
  | Some roles =>
      let roles := list_sort id false roles in
      ret (<["roles" := IList roles]> kwargs')
  end.

Definition AddUserView_get_initial (self : view) : Py state (gmap string value) :=
  default_role <- api_keystone_get_default_role self ;;
  ret (<["tenant_id" := VStr (kw_tenant_id (kwargs self))]>
       (<["user_id" := VStr (kw_user_id (kwargs self))]>
        (<["role_id" := getattr_opt default_role "id" VNone]> ∅))).

(** *** [CreateProjectView] and [UpdateProjectView] *)

Definition CreateProjectView_get_initial (self : view) : Py state (gmap string value) :=
  let initial := super_get_initial self in
  with_local initial
    (try_except
       (quota_defaults <- lift (api_tenant_quota_defaults self
                                  (request_user_tenant_id self)) ;;
        for_each QUOTA_FIELDS (fun field =>
          setitem field (getattr quota_defaults field VNone)))
       (fun e =>
          let error_msg := "Unable to retrieve default quota values." in
          lift (add_error_to_step error_msg "update_quotas")) ;;
     get_local).

Definition UpdateProjectView_get_initial (self : view) : Py state (gmap string value) :=
  let initial := super_get_initial self in
  with_local initial
    (let project_id := kw_tenant_id (kwargs self) in
     setitem "project_id" (VStr project_id) ;;
     try_except
       (project_info <- lift (api_tenant_get self project_id) ;;
        for_each PROJECT_INFO_FIELDS (fun field =>
          setitem field (getattr project_info field VNone)) ;;
        quota_data <- lift (api_tenant_quota_get self project_id) ;;
        for_each QUOTA_FIELDS (fun field =>
          setitem field (getattr quota_data field VNone)))
       (fun e =>
          let redirect := reverse "horizon:syspanel:projects:index" [] in
          lift (exceptions_handle self e
                  "Unable to retrieve project details." (Some redirect))) ;;
     get_local).

(** ** The operations of the module, run uniformly

    [TenantUsageView.get_data] and [AddUserView.get_success_url] issue no
    call to the client themselves and are left out. *)

Inductive operation : Type :=
| Op_TenantContextMixin_get_object
| Op_TenantContextMixin_get_context_data
| Op_IndexView_get_data
| Op_UsersView__get_shared_data
| Op_UsersView_get_tenant_users_data
| Op_UsersView_get_add_users_data
| Op_UsersView_get_context_data
| Op_AddUserView_get_context_data
| Op_AddUserView_get_form_kwargs
| Op_AddUserView_get_initial
| Op_CreateProjectView_get_initial
| Op_UpdateProjectView_get_initial.

Inductive result : Type :=
| RObj (o : obj)
| RList (l : list obj)
| RShared (d : shared_data)
| RInitial (d : gmap string value)
| RDict (d : gmap string item).

Definition as_result {A} (f : A -> result) (m : Py state A) : Py state result :=
  a <- m ;; ret (f a).

Definition perform (self : view) (op : operation) : Py state result :=
  match op with
  | Op_TenantContextMixin_get_object =>
      as_result RObj (TenantContextMixin_get_object self)
  | Op_TenantContextMixin_get_context_data =>
      as_result RDict (TenantContextMixin_get_context_data self)
  | Op_IndexView_get_data =>
      as_result RList (IndexView_get_data self)
  | Op_UsersView__get_shared_data =>
      as_result RShared (UsersView__get_shared_data self)
  | Op_UsersView_get_tenant_users_data =>
      as_result RList (UsersView_get_tenant_users_data self)
  | Op_UsersView_get_add_users_data =>
      as_result RList (UsersView_get_add_users_data self)
  | Op_UsersView_get_context_data =>
      as_result RDict (UsersView_get_context_data self)
  | Op_AddUserView_get_context_data =>
      as_result RDict (AddUserView_get_context_data self)
  | Op_AddUserView_get_form_kwargs =>
      as_result RDict (AddUserView_get_form_kwargs self)
  | Op_AddUserView_get_initial =>
      as_result RInitial (AddUserView_get_initial self)
  | Op_CreateProjectView_get_initial =>
      as_result RInitial (CreateProjectView_get_initial self)
  | Op_UpdateProjectView_get_initial =>
      as_result RInitial (UpdateProjectView_get_initial self)
  end.

(** The calls issued between two states, and whether one of them failed. *)
Definition new_calls (s s' : state) : list api_event :=
  drop (length (api_log s)) (api_log s').

Definition api_failed (s s' : state) : Prop :=
  exists c, (c, false) ∈ new_calls s s'.

Definition index_url : url := reverse "horizon:syspanel:projects:index" [].

Definition users_url (tenant_id : string) : url :=
  reverse "horizon:syspanel:projects:users" [tenant_id].

Definition listing_page (self : view) (u : url) : Prop :=
  u = index_url \/ u = users_url (kw_tenant_id (kwargs self)).

(** The uniform policy of the error-handling section, for one operation
    started in state [s]: when a call of the operation fails, a flash
    message is added and the operation either returns or redirects to a
    listing page. *)
Definition uniform_policy (self : view) (op : operation) (s : state) : Prop :=
  forall r s',
    perform self op s = (r, s') ->
    api_failed s s' ->
    (exists m, messages s' = messages s ++ [m]) /\
    (is_return r = true \/
     exists u, r = Raise (Http302 u) /\ listing_page self u).

(** How each operation treats a failed call. *)
Inductive treatment : Type :=
| Degrade (r : result) (message : string)
| Redirect (location : url) (message : string)
| StepError (r : result) (step message : string).

Definition treated (t : treatment) (s : state) (r : outcome result) (s' : state)
  : Prop :=
  match t with
  | Degrade v m =>
      r = Return v /\
      messages s' = messages s ++ [m] /\
      step_errors s' = step_errors s
  | Redirect u m =>
      r = Raise (Http302 u) /\
      messages s' = messages s ++ [m] /\
      step_errors s' = step_errors s
  | StepError v step m =>
      r = Return v /\
      messages s' = messages s /\
      step_errors s' = step_errors s ++ [(step, m)]
  end.

(** [None] for the one operation whose call is not inside a [try]. *)
Definition failure_treatment (self : view) (op : operation) : option treatment :=
  match op with
  | Op_TenantContextMixin_get_object
  | Op_TenantContextMixin_get_context_data
  | Op_AddUserView_get_context_data =>
      Some (Redirect index_url "Unable to retrieve project information.")
  | Op_IndexView_get_data =>
      Some (Degrade (RList []) "Unable to retrieve project list.")
  | Op_UsersView__get_shared_data
  | Op_UsersView_get_tenant_users_data
  | Op_UsersView_get_add_users_data
  | Op_UsersView_get_context_data =>
      Some (Redirect index_url "Unable to retrieve users.")
  | Op_AddUserView_get_form_kwargs =>
      Some (Redirect (users_url (kw_tenant_id (kwargs self)))
                     "Unable to retrieve roles.")
  | Op_AddUserView_get_initial => None
  | Op_CreateProjectView_get_initial =>
      Some (StepError (RInitial (super_get_initial self)) "update_quotas"
                      "Unable to retrieve default quota values.")
  | Op_UpdateProjectView_get_initial =>
      Some (Redirect index_url "Unable to retrieve project details.")
  end.

(** The view with the error handler of the spec. *)
Definition with_spec_handle (self : view) : view :=
  {| api := api self;
     handle := spec_handle;
     kwargs := kwargs self;
     request_user_tenant_id := request_user_tenant_id self;
     super_get_initial := super_get_initial self;
     super_get_context_data := super_get_context_data self;
     super_get_form_kwargs := super_get_form_kwargs self |}.

(** ** Sample clients and requests, to run the views on concrete data *)

Definition mk_obj (i : string) (fields : list (string * value)) : obj :=
  Obj i (list_to_map fields).

Definition alice : obj := mk_obj "u1" [("name", VStr "alice")].
Definition bob : obj := mk_obj "u2" [("name", VStr "bob")].
Definition carol : obj := mk_obj "u3" [("name", VStr "carol")].

Definition acme : obj :=
  mk_obj "t1" [("name", VStr "acme"); ("enabled", VBool true)].
Definition initech : obj := mk_obj "t2" [("name", VStr "initech")].
Definition globex : obj := mk_obj "t3" [("name", VStr "globex")].

Definition admin_role : obj := mk_obj "r2" [("name", VStr "admin")].
Definition member_role : obj := mk_obj "r1" [("name", VStr "Member")].

Definition acme_quota : obj :=
  mk_obj "t1" [("cores", VInt 20); ("instances", VInt 10); ("ram", VInt 51200)].

Definition sample_api : Api :=
  {| keystone_tenant_get := fun _ _ => Return acme;
     keystone_tenant_list := fun _ => Return [acme; globex; initech];
     keystone_user_list := fun _ t =>
       match t with
       | None => Return [alice; bob; carol]
       | Some _ => Return [bob]
       end;
     keystone_role_list := fun _ => Return [admin_role; member_role];
     keystone_get_default_role := fun _ => Return (Some member_role);
     tenant_quota_defaults := fun _ _ => Return acme_quota;
     tenant_get := fun _ _ => Return acme;
     tenant_quota_get := fun _ _ => Return acme_quota |}.

(** A client that lists one user twice. *)
Definition duplicate_api : Api :=
  {| keystone_tenant_get := fun _ _ => Return acme;
     keystone_tenant_list := fun _ => Return [acme];
     keystone_user_list := fun _ t =>
       match t with
       | None => Return [alice; alice]
       | Some _ => Return []
       end;
     keystone_role_list := fun _ => Return [];
     keystone_get_default_role := fun _ => Return None;
     tenant_quota_defaults := fun _ _ => Return acme_quota;
     tenant_get := fun _ _ => Return acme;
     tenant_quota_get := fun _ _ => Return acme_quota |}.

(** A client that is down: every call raises. *)
Definition failing_api : Api :=
  {| keystone_tenant_get := fun _ _ => Raise (ClientError "unavailable");
     keystone_tenant_list := fun _ => Raise (ClientError "unavailable");
     keystone_user_list := fun _ _ => Raise (ClientError "unavailable");
     keystone_role_list := fun _ => Raise (ClientError "unavailable");
     keystone_get_default_role := fun _ => Raise (ClientError "unavailable");
     tenant_quota_defaults := fun _ _ => Raise (ClientError "unavailable");
     tenant_get := fun _ _ => Raise (ClientError "unavailable");
     tenant_quota_get := fun _ _ => Raise (ClientError "unavailable") |}.

(** A handler that records the message and always returns, as the real
    handler may do for some classes of exception. *)
Definition lenient_handle : handler :=
  fun _ message _ flash => (Return tt, flash ++ [message]).

Definition sample_view (a : Api) (h : handler) : view :=
  {| api := a;
     handle := h;
     kwargs := {| kw_tenant_id := "t1"; kw_user_id := "u1" |};
     request_user_tenant_id := "t0";
     super_get_initial := ∅;
     super_get_context_data := ∅;
     super_get_form_kwargs := ∅ |}.

(** The state at the start of a request. *)
Definition request_start : state := State [] [] [] None None.

(** The calls [UsersView._get_shared_data] issues when nothing is cached,
    in order. *)
Definition shared_fetches (tenant_id : string) : list api_call :=
  [KeystoneTenantGet tenant_id;
   KeystoneUserList None;
   KeystoneUserList (Some tenant_id)].

(** The dictionary after [for field in fields: d[field] = f(field)]. *)
Definition fill_fields (fields : list string) (f : string -> value)
    (d : gmap string value) : gmap string value :=
  foldl (fun acc field => <[field := f field]> acc) d fields.

(** The claim that a failed fetch of a form-prefill view is surfaced as a
    step-scoped validation error. *)
Definition surfaced_as_step_error (self : view) (op : operation) (s : state)
  : Prop :=
  forall r s',
    perform self op s = (r, s') ->
    api_failed s s' ->
    exists v step m, treated (StepError v step m) s r s'.

(** A request runs operations one after the other; an exception ends it. *)
Fixpoint perform_all (self : view) (ops : list operation)
  : Py state (list result) :=
  match ops with
  | [] => ret []
  | op :: ops' =>
      r <- perform self op ;;
      rs <- perform_all self ops' ;;
      ret (r :: rs)
  end.

Definition users_view_operation (op : operation) : Prop :=
  op ∈ [Op_UsersView__get_shared_data;
        Op_UsersView_get_tenant_users_data;
        Op_UsersView_get_add_users_data;
        Op_UsersView_get_context_data].

(** Further sample clients: one that lists the tenants in another order,
    and one whose quota service is down while the identity service works. *)
Definition reordered_api : Api :=
  {| keystone_tenant_get := fun _ _ => Return acme;
     keystone_tenant_list := fun _ => Return [initech; acme; globex];
     keystone_user_list := fun _ t =>
       match t with
       | None => Return [carol; alice; bob]
       | Some _ => Return [bob]
       end;
     keystone_role_list := fun _ => Return [member_role; admin_role];
     keystone_get_default_role := fun _ => Return None;
     tenant_quota_defaults := fun _ _ => Return acme_quota;
     tenant_get := fun _ _ => Return acme;
     tenant_quota_get := fun _ _ => Return acme_quota |}.

Definition quota_down_api : Api :=
  {| keystone_tenant_get := fun _ _ => Return acme;
     keystone_tenant_list := fun _ => Return [acme; globex; initech];
     keystone_user_list := fun _ t =>
       match t with
       | None => Return [alice; bob; carol]
       | Some _ => Raise (ClientError "unavailable")
       end;
     keystone_role_list := fun _ => Return [admin_role; member_role];
     keystone_get_default_role := fun _ => Return (Some member_role);
     tenant_quota_defaults := fun _ _ => Raise (ClientError "unavailable");
     tenant_get := fun _ _ => Return acme;
     tenant_quota_get := fun _ _ => Raise (ClientError "unavailable") |}.

(** Two records of the same tenant id, as a client may list them. *)
Definition acme_old : obj := mk_obj "t1" [("name", VStr "acme (old)")].

Definition repeated_id_api : Api :=
  {| keystone_tenant_get := fun _ _ => Return acme;
     keystone_tenant_list := fun _ => Return [acme; globex; acme_old];
     keystone_user_list := fun _ _ => Return [];
     keystone_role_list := fun _ => Return [];
     keystone_get_default_role := fun _ => Return None;
     tenant_quota_defaults := fun _ _ => Return acme_quota;
     tenant_get := fun _ _ => Return acme;
     tenant_quota_get := fun _ _ => Return acme_quota |}.

(** * Properties *)

(** ** The order on identifiers is a total preorder *)

Module StrOrdFacts.

Lemma ascii_cmp_N (a b : ascii) :
  Ascii.compare a b = N.compare (N_of_ascii a) (N_of_ascii b).
Proof. reflexivity. Qed.

Lemma compare_le_trans (s1 : string) :
  forall s2 s3,
    String.compare s1 s2 <> Gt ->
    String.compare s2 s3 <> Gt ->
    String.compare s1 s3 <> Gt.
Proof.
  induction s1 as [|a s1 IH]; intros [|b s2] [|c s3]; simpl; try congruence.
  rewrite !ascii_cmp_N.
  destruct (N.compare_spec (N_of_ascii a) (N_of_ascii b)) as [Hab|Hab|Hab];
    destruct (N.compare_spec (N_of_ascii b) (N_of_ascii c)) as [Hbc|Hbc|Hbc];
    destruct (N.compare_spec (N_of_ascii a) (N_of_ascii c)) as [Hac|Hac|Hac];
    try congruence; try lia.
  intros H12 H23. exact (IH _ _ H12 H23).
Qed.

Lemma le_total a b : StrOrd.le a b \/ StrOrd.le b a.
Proof. apply String.leb_total. Qed.

Lemma leb_not_gt a b : String.leb a b = true <-> String.compare a b <> Gt.
Proof.
  unfold String.leb. destruct (String.compare a b); split; congruence.
Qed.

Lemma le_trans a b c : StrOrd.le a b -> StrOrd.le b c -> StrOrd.le a c.
Proof.
  unfold StrOrd.le. rewrite !leb_not_gt. apply compare_le_trans.
Qed.

Lemma not_leb_le a b : String.leb a b = false -> StrOrd.le b a.
Proof.
  intros H. destruct (le_total a b) as [Hab|Hba]; [|assumption].
  unfold StrOrd.le in Hab. congruence.
Qed.

End StrOrdFacts.

(** ** [list.sort] rearranges its list and leaves it sorted *)

Section ListSortFacts.
Context {A : Type} (key : A -> string).

Lemma insert_by_perm x l : Permutation (x :: l) (insert_by key x l).
Proof.
  induction l as [|y l IH]; simpl; [reflexivity|].
  destruct (String.leb (key x) (key y)); [reflexivity|].
  rewrite perm_swap. constructor. exact IH.
Qed.

Lemma sort_asc_perm l : Permutation l (sort_asc key l).
Proof.
  induction l as [|x l IH]; simpl; [constructor|].
  rewrite <- insert_by_perm. constructor. exact IH.
Qed.

Lemma insert_by_Forall (P : A -> Prop) x l :
  P x -> Forall P l -> Forall P (insert_by key x l).
Proof.
  intros Hx Hl. eapply Permutation_Forall; [apply insert_by_perm|].
  constructor; assumption.
Qed.

Lemma insert_by_sorted x l :
  StronglySorted (key_le key) l ->
  StronglySorted (key_le key) (insert_by key x l).
Proof.
  induction 1 as [|y l Hl IH Hy]; simpl.
  - repeat constructor.
  - destruct (String.leb (key x) (key y)) eqn:Hxy.
    + constructor; [constructor; assumption|].
      constructor; [exact Hxy|].
      eapply Forall_impl; [exact Hy|]. intros z Hz.
      eapply StrOrdFacts.le_trans; [exact Hxy|exact Hz].
    + constructor; [exact IH|].
      apply insert_by_Forall; [|exact Hy].
      apply StrOrdFacts.not_leb_le. exact Hxy.
Qed.

Lemma sort_asc_sorted l : StronglySorted (key_le key) (sort_asc key l).
Proof.
  induction l as [|x l IH]; simpl; [constructor|].
  apply insert_by_sorted. exact IH.
Qed.

Lemma StronglySorted_snoc (R : A -> A -> Prop) l x :
  StronglySorted R l -> Forall (fun y => R y x) l ->
  StronglySorted R (l ++ [x]).
Proof.
  induction 1 as [|y l Hl IH Hy]; intros Hall; simpl.
  - repeat constructor.
  - inversion Hall as [|? ? Hyx Hrest]; subst.
    constructor; [apply IH; exact Hrest|].
    apply Forall_app. split; [exact Hy|]. repeat constructor. exact Hyx.
Qed.

Lemma StronglySorted_rev (R : A -> A -> Prop) l :
  StronglySorted R l -> StronglySorted (fun x y => R y x) (rev l).
Proof.
  induction 1 as [|y l Hl IH Hy]; simpl; [constructor|].
  apply StronglySorted_snoc; [exact IH|].
  apply Forall_rev. exact Hy.
Qed.

Lemma list_sort_perm reverse l : Permutation l (list_sort key reverse l).
Proof.
  unfold list_sort. destruct reverse.
  - rewrite <- Permutation_rev, <- sort_asc_perm. apply Permutation_rev.
  - apply sort_asc_perm.
Qed.

Lemma list_sort_ascending l : StronglySorted (key_le key) (list_sort key false l).
Proof. apply sort_asc_sorted. Qed.

Lemma list_sort_descending l : StronglySorted (key_ge key) (list_sort key true l).
Proof.
  unfold list_sort.
  apply (StronglySorted_rev (key_le key)). apply sort_asc_sorted.
Qed.

End ListSortFacts.

(** ** Running view code *)

Ltac py_unfold :=
  unfold api_keystone_tenant_get, api_keystone_tenant_list,
    api_keystone_user_list, api_keystone_role_list,
    api_keystone_get_default_role, api_tenant_quota_defaults,
    api_tenant_get, api_tenant_quota_get in *;
  unfold as_result, bind, try_except, ret, raise, gets, read_attr, call,
    lift, with_local, get_local, set__object, set__shared_data,
    exceptions_handle, add_error_to_step, set_messages, set_step_errors,
    set_api_log in *;
  cbv beta zeta in *.

(** ** [IndexView.get_data] *)

Lemma IndexView_get_data_ok self s tenants :
  keystone_tenant_list (api self) (api_log s) = Return tenants ->
  IndexView_get_data self s =
    (Return (list_sort id true tenants),
     set_api_log (api_log s ++ [(KeystoneTenantList, true)]) s).
Proof.
  intros Hcall. unfold IndexView_get_data. py_unfold.
  rewrite Hcall. reflexivity.
Qed.

(** C2: when the client returns a collection of tenants,
    [IndexView.get_data] returns a rearrangement of it that is sorted by
    tenant id in descending order. *)
Theorem IndexView_get_data_sorted_descending self s tenants :
  keystone_tenant_list (api self) (api_log s) = Return tenants ->
  exists r s',
    IndexView_get_data self s = (Return r, s') /\
    Permutation tenants r /\
    StronglySorted (key_ge id) r.
Proof.
  intros Hcall. eexists _, _. split; [apply IndexView_get_data_ok; exact Hcall|].
  split; [apply list_sort_perm|apply list_sort_descending].
Qed.

Lemma IndexView_get_data_sorted_descending_witness :
  exists r s',
    IndexView_get_data (sample_view sample_api spec_handle) request_start
      = (Return r, s') /\
    Permutation [acme; globex; initech] r /\
    StronglySorted (key_ge id) r.
Proof.
  apply (IndexView_get_data_sorted_descending
           (sample_view sample_api spec_handle) request_start).
  reflexivity.
Defined.

(** C3: when the call listing the tenants fails, [IndexView.get_data] does
    not raise; it records the user-facing message and returns the empty
    list. *)
Theorem IndexView_get_data_failure self s e :
  keystone_tenant_list (api self) (api_log s) = Raise e ->
  exists s',
    IndexView_get_data (with_spec_handle self) s = (Return [], s') /\
    messages s' = messages s ++ ["Unable to retrieve project list."] /\
    api_log s' = api_log s ++ [(KeystoneTenantList, false)].
Proof.
  intros Hcall. unfold IndexView_get_data. py_unfold. simpl.
  rewrite Hcall. simpl. eexists. split; [reflexivity|]. split; reflexivity.
Qed.

Lemma IndexView_get_data_failure_witness :
  exists s',
    IndexView_get_data
      (with_spec_handle (sample_view failing_api lenient_handle)) request_start
      = (Return [], s') /\
    messages s' = messages request_start ++ ["Unable to retrieve project list."] /\
    api_log s' = api_log request_start ++ [(KeystoneTenantList, false)].
Proof.
  apply (IndexView_get_data_failure
           (sample_view failing_api lenient_handle) request_start
           (ClientError "unavailable")).
  reflexivity.
Defined.

(** ** [AddUserView.get_form_kwargs] *)

Lemma AddUserView_get_form_kwargs_ok self s roles :
  keystone_role_list (api self) (api_log s) = Return roles ->
  AddUserView_get_form_kwargs self s =
    (Return (<["roles" := IList (list_sort id false roles)]>
               (super_get_form_kwargs self)),
     set_api_log (api_log s ++ [(KeystoneRoleList, true)]) s).
Proof.
  intros Hcall. unfold AddUserView_get_form_kwargs. py_unfold.
  rewrite Hcall. reflexivity.
Qed.

(** C8: when the client returns a collection of roles, the keyword
    arguments built by [AddUserView.get_form_kwargs] bind ['roles'] to a
    rearrangement of it that is sorted by role id in ascending order. *)
Theorem AddUserView_get_form_kwargs_roles_sorted self s roles :
  keystone_role_list (api self) (api_log s) = Return roles ->
  exists kw r s',
    AddUserView_get_form_kwargs self s = (Return kw, s') /\
    kw !! "roles" = Some (IList r) /\
    Permutation roles r /\
    StronglySorted (key_le id) r.
Proof.
  intros Hcall. eexists _, _, _.
  split; [apply AddUserView_get_form_kwargs_ok; exact Hcall|].
  split; [apply lookup_insert_eq|].
  split; [apply list_sort_perm|apply list_sort_ascending].
Qed.

Lemma AddUserView_get_form_kwargs_roles_sorted_witness :
  exists kw r s',
    AddUserView_get_form_kwargs (sample_view sample_api spec_handle)
      request_start = (Return kw, s') /\
    kw !! "roles" = Some (IList r) /\
    Permutation [admin_role; member_role] r /\
    StronglySorted (key_le id) r.
Proof.
  apply (AddUserView_get_form_kwargs_roles_sorted
           (sample_view sample_api spec_handle) request_start).
  reflexivity.
Defined.

(** ** Inversion of running code *)

Ltac py_case :=
  match goal with
  | H : context [match ?x with Return _ => _ | Raise _ => _ end] |- _ =>
      destruct x eqn:?
  | H : context [match ?x with Some _ => _ | None => _ end] |- _ =>
      destruct x eqn:?
  | H : context [match ?x with pair _ _ => _ end] |- _ =>
      destruct x eqn:?
  | |- context [match ?x with Return _ => _ | Raise _ => _ end] =>
      destruct x eqn:?
  | |- context [match ?x with Some _ => _ | None => _ end] =>
      destruct x eqn:?
  | |- context [match ?x with pair _ _ => _ end] =>
      destruct x eqn:?
  end.

Ltac py_inv :=
  repeat match goal with
  | H : (_, _) = (_, _) |- _ => inversion H; subst; clear H
  | H : Return _ = Return _ |- _ => inversion H; subst; clear H
  | H : Raise _ = Raise _ |- _ => inversion H; subst; clear H
  | H : Some _ = Some _ |- _ => inversion H; subst; clear H
  | H : Return _ = Raise _ |- _ => discriminate H
  | H : Raise _ = Return _ |- _ => discriminate H
  | H : Some _ = None |- _ => discriminate H
  | H : None = Some _ |- _ => discriminate H
  end.

(** Membership in a list that is written out. *)
Ltac in_fields H :=
  repeat (apply elem_of_cons in H as [->|H]);
  [..|apply elem_of_nil in H; contradiction].

Ltac decide_closed := apply (bool_decide_unpack _); vm_compute; exact I.

Lemma new_calls_app (s s' : state) (k : list api_event) :
  api_log s' = api_log s ++ k -> new_calls s s' = k.
Proof. intros H. unfold new_calls. rewrite H. apply drop_app_length. Qed.

Lemma new_calls_same (s : state) : new_calls s s = [].
Proof. apply new_calls_app. symmetry. apply app_nil_r. Qed.

(** ** [UsersView._get_shared_data] *)

Lemma UsersView__get_shared_data_cached self s d :
  _shared_data s = Some d ->
  UsersView__get_shared_data self s = (Return d, s).
Proof.
  intros Hc. unfold UsersView__get_shared_data. py_unfold.
  rewrite Hc. simpl. rewrite Hc. reflexivity.
Qed.

Lemma UsersView__get_shared_data_caches self s d s1 :
  UsersView__get_shared_data self s = (Return d, s1) ->
  _shared_data s1 = Some d.
Proof.
  unfold UsersView__get_shared_data. py_unfold. intros H.
  repeat (py_case; simpl in *; py_inv); try assumption; reflexivity.
Qed.

Lemma UsersView__get_shared_data_calls self s r s1 :
  UsersView__get_shared_data self s = (r, s1) ->
  api_log s1 = api_log s ++ new_calls s s1 /\
  map fst (new_calls s s1) `prefix_of` shared_fetches (kw_tenant_id (kwargs self)) /\
  (is_Some (_shared_data s) -> new_calls s s1 = []).
Proof.
  unfold UsersView__get_shared_data. py_unfold. intros H.
  repeat (py_case; simpl in *; py_inv);
    match goal with
    | |- context [new_calls ?a ?b] =>
        erewrite (new_calls_app a b);
        [|first [symmetry; apply app_nil_r
                |simpl; rewrite <- ?app_assoc; reflexivity]]
    end;
    simpl; rewrite <- ?app_assoc; simpl;
    (split; [try rewrite app_nil_r; reflexivity|]);
    (split; [|intros [? ?]; congruence]);
    unfold shared_fetches.
  all: try (by apply prefix_nil).
  all: try (by eexists; reflexivity).
Qed.

Lemma UsersView_get_tenant_users_data_run self s d s1 :
  UsersView__get_shared_data self s = (Return d, s1) ->
  UsersView_get_tenant_users_data self s = (Return (sd_tenant_users d), s1).
Proof.
  intros H. unfold UsersView_get_tenant_users_data, bind, ret.
  rewrite H. reflexivity.
Qed.

Lemma UsersView_get_add_users_data_run self s d s1 :
  UsersView__get_shared_data self s = (Return d, s1) ->
  UsersView_get_add_users_data self s =
    (Return (filter (fun u => id u ∉ map id (sd_tenant_users d))
                    (sd_all_users d)),
     s1).
Proof.
  intros H. unfold UsersView_get_add_users_data, bind, ret.
  rewrite H.
  rewrite (UsersView__get_shared_data_cached self s1 d
             (UsersView__get_shared_data_caches self s d s1 H)).
  reflexivity.
Qed.

Lemma UsersView_get_context_data_run self s d s1 :
  UsersView__get_shared_data self s = (Return d, s1) ->
  UsersView_get_context_data self s =
    (Return (<["tenant" := IObj (sd_tenant d)]> (super_get_context_data self)),
     s1).
Proof.
  intros H. unfold UsersView_get_context_data, bind, ret.
  rewrite H. reflexivity.
Qed.

Lemma users_view_operation_run self op s :
  users_view_operation op ->
  match UsersView__get_shared_data self s with
  | (Return d, s1) => exists v, perform self op s = (Return v, s1)
  | (Raise e, s1) => perform self op s = (Raise e, s1)
  end.
Proof.
  intros Hop. unfold users_view_operation in Hop.
  destruct (UsersView__get_shared_data self s) as [[d|e] s1] eqn:Hrun.
  - in_fields Hop; simpl; unfold as_result, bind, ret;
      [rewrite Hrun
      |rewrite (UsersView_get_tenant_users_data_run _ _ _ _ Hrun)
      |rewrite (UsersView_get_add_users_data_run _ _ _ _ Hrun)
      |rewrite (UsersView_get_context_data_run _ _ _ _ Hrun)];
      eexists; reflexivity.
  - in_fields Hop; simpl;
      unfold as_result, UsersView_get_tenant_users_data,
        UsersView_get_add_users_data, UsersView_get_context_data, bind, ret;
      rewrite Hrun; reflexivity.
Qed.

Lemma perform_all_cached self ops s :
  Forall users_view_operation ops ->
  is_Some (_shared_data s) ->
  exists vs, perform_all self ops s = (Return vs, s).
Proof.
  intros Hops [d Hd]. induction Hops as [|op ops Hop _ IH]; simpl.
  - eexists. reflexivity.
  - pose proof (users_view_operation_run self op s Hop) as Hrun.
    rewrite (UsersView__get_shared_data_cached self s d Hd) in Hrun.
    destruct Hrun as [v Hv]. destruct IH as [vs Hvs].
    unfold bind, ret. rewrite Hv, Hvs. eexists. reflexivity.
Qed.

Lemma perform_all_calls self ops s r s' :
  Forall users_view_operation ops ->
  perform_all self ops s = (r, s') ->
  api_log s' = api_log s ++ new_calls s s' /\
  map fst (new_calls s s')
    `prefix_of` shared_fetches (kw_tenant_id (kwargs self)).
Proof.
  intros Hops. destruct Hops as [|op ops Hop Hops]; simpl; intros Hrun.
  - unfold ret in Hrun. py_inv. rewrite new_calls_same, app_nil_r.
    split; [reflexivity|apply prefix_nil].
  - pose proof (users_view_operation_run self op s Hop) as Hop_run.
    destruct (UsersView__get_shared_data self s) as [[d|e] s1] eqn:Hshared;
      pose proof (UsersView__get_shared_data_calls _ _ _ _ Hshared)
        as (Hlog & Hprefix & _).
    + destruct Hop_run as [v Hv].
      destruct (perform_all_cached self ops s1 Hops) as [vs Hvs].
      { rewrite (UsersView__get_shared_data_caches _ _ _ _ Hshared). eauto. }
      unfold bind, ret in Hrun. rewrite Hv, Hvs in Hrun. py_inv.
      split; assumption.
    + unfold bind in Hrun. rewrite Hop_run in Hrun. py_inv.
      split; assumption.
Qed.

(** C7: one run of [UsersView._get_shared_data] issues each of the tenant,
    all-users and tenant-users fetches at most once, and none when the data
    is cached; once it has returned, every later call returns the cached
    data and leaves the state, and so the log of calls, as it is, and
    [get_tenant_users_data], [get_add_users_data] and [get_context_data]
    are all computed from that same data; hence a request, running any
    sequence of these operations, issues each fetch at most once. *)
Theorem UsersView__get_shared_data_fetches_once self s r s1 :
  UsersView__get_shared_data self s = (r, s1) ->
  (api_log s1 = api_log s ++ new_calls s s1 /\
   map fst (new_calls s s1)
     `prefix_of` shared_fetches (kw_tenant_id (kwargs self)) /\
   (is_Some (_shared_data s) -> new_calls s s1 = [])) /\
  (forall d, r = Return d ->
     UsersView__get_shared_data self s1 = (Return d, s1) /\
     UsersView_get_tenant_users_data self s1
       = (Return (sd_tenant_users d), s1) /\
     UsersView_get_add_users_data self s1
       = (Return (filter (fun u => id u ∉ map id (sd_tenant_users d))
                         (sd_all_users d)), s1) /\
     UsersView_get_context_data self s1
       = (Return (<["tenant" := IObj (sd_tenant d)]>
                    (super_get_context_data self)), s1)) /\
  (forall ops rs s',
     Forall users_view_operation ops ->
     perform_all self ops s = (rs, s') ->
     api_log s' = api_log s ++ new_calls s s' /\
     map fst (new_calls s s')
       `prefix_of` shared_fetches (kw_tenant_id (kwargs self))).
Proof.
  intros Hrun. split; [|split].
  - eapply UsersView__get_shared_data_calls. exact Hrun.
  - intros d ->.
    pose proof (UsersView__get_shared_data_caches _ _ _ _ Hrun) as Hc.
    pose proof (UsersView__get_shared_data_cached self _ _ Hc) as Hagain.
    split; [exact Hagain|].
    split; [apply UsersView_get_tenant_users_data_run; exact Hagain|].
    split; [apply UsersView_get_add_users_data_run; exact Hagain|].
    apply UsersView_get_context_data_run; exact Hagain.
  - intros ops rs s' Hops Hall. eapply perform_all_calls; eassumption.
Qed.

Lemma UsersView__get_shared_data_fetches_once_witness :
  let self := sample_view sample_api spec_handle in
  let d := SharedData acme [alice; bob; carol] [bob] in
  let s1 := State [] [] [(KeystoneTenantGet "t1", true);
                         (KeystoneUserList None, true);
                         (KeystoneUserList (Some "t1"), true)]
                  None (Some d) in
  UsersView__get_shared_data self request_start = (Return d, s1) /\
  UsersView__get_shared_data self s1 = (Return d, s1) /\
  UsersView_get_tenant_users_data self s1 = (Return [bob], s1) /\
  UsersView_get_add_users_data self s1 = (Return [alice; carol], s1) /\
  map fst (new_calls request_start s1) = shared_fetches "t1" /\
  (forall rs s',
     perform_all self [Op_UsersView_get_tenant_users_data;
                       Op_UsersView_get_add_users_data;
                       Op_UsersView_get_context_data] request_start
       = (rs, s') ->
     map fst (new_calls request_start s') `prefix_of` shared_fetches "t1").
Proof.
  intros self d s1.
  assert (Hrun : UsersView__get_shared_data self request_start = (Return d, s1))
    by reflexivity.
  destruct (UsersView__get_shared_data_fetches_once
              self request_start (Return d) s1 Hrun)
    as (_ & Hlater & Hrequest).
  destruct (Hlater d eq_refl) as (Hagain & Htu & Hadd & _).
  split; [exact Hrun|].
  split; [exact Hagain|].
  split; [exact Htu|].
  split; [exact Hadd|].
  split; [reflexivity|].
  intros rs s' Hall.
  refine (proj2 (Hrequest _ rs s' _ Hall)).
  repeat constructor.
Defined.

(** ** [UsersView.get_add_users_data] *)

Lemma filter_NoDup_obj (P : obj -> Prop) `{!forall x, Decision (P x)}
    (l : list obj) :
  NoDup l -> NoDup (filter P l).
Proof. apply NoDup_filter. Qed.

(** C1, as amended: the addable users are the all-users collection without
    the users whose id is the id of a user of the tenant, and they are free
    of duplicates when the all-users collection is. *)
Theorem UsersView_get_add_users_data_difference self s d s1 :
  UsersView__get_shared_data self s = (Return d, s1) ->
  exists r,
    UsersView_get_add_users_data self s = (Return r, s1) /\
    r = filter (fun u => id u ∉ map id (sd_tenant_users d)) (sd_all_users d) /\
    (forall u, u ∈ r <->
               u ∈ sd_all_users d /\
               ~ exists v, v ∈ sd_tenant_users d /\ id v = id u) /\
    (NoDup (sd_all_users d) -> NoDup r).
Proof.
  intros Hrun. eexists. split; [apply UsersView_get_add_users_data_run; exact Hrun|].
  split; [reflexivity|]. split.
  - intros u. rewrite list_elem_of_filter, list_elem_of_fmap.
    split.
    + intros [Hne Hin]. split; [exact Hin|].
      intros (v & Hv & Hid). apply Hne. exists v. auto.
    + intros [Hin Hne]. split; [|exact Hin].
      intros (v & Hid & Hv). apply Hne. exists v. auto.
  - apply filter_NoDup_obj.
Qed.

Lemma UsersView_get_add_users_data_difference_witness :
  exists r,
    UsersView_get_add_users_data (sample_view sample_api spec_handle)
      request_start
    = (Return r,
       State [] [] [(KeystoneTenantGet "t1", true);
                    (KeystoneUserList None, true);
                    (KeystoneUserList (Some "t1"), true)]
             None (Some (SharedData acme [alice; bob; carol] [bob]))) /\
    r = filter (fun u => id u ∉ map id [bob]) [alice; bob; carol] /\
    (forall u, u ∈ r <->
               u ∈ [alice; bob; carol] /\
               ~ exists v, v ∈ [bob] /\ id v = id u) /\
    (NoDup [alice; bob; carol] -> NoDup r).
Proof.
  apply (UsersView_get_add_users_data_difference
           (sample_view sample_api spec_handle) request_start
           (SharedData acme [alice; bob; carol] [bob])).
  reflexivity.
Defined.

(** C1, as stated, fails: a client that lists a user twice makes the
    addable users contain that user twice. *)
Lemma UsersView_get_add_users_data_duplicates :
  fst (UsersView_get_add_users_data (sample_view duplicate_api spec_handle)
         request_start)
  = Return [alice; alice] /\
  ~ NoDup [alice; alice].
Proof.
  split; [reflexivity|].
  intros Hnd. apply NoDup_cons in Hnd as [Hnotin _].
  apply Hnotin. left.
Qed.

(** C9: the addable users appear in the order they have in the all-users
    collection: the result is obtained from it by deleting elements. *)
Theorem UsersView_get_add_users_data_order self s d s1 :
  UsersView__get_shared_data self s = (Return d, s1) ->
  exists r,
    UsersView_get_add_users_data self s = (Return r, s1) /\
    r `sublist_of` sd_all_users d.
Proof.
  intros Hrun. eexists. split; [apply UsersView_get_add_users_data_run; exact Hrun|].
  apply sublist_filter.
Qed.

Lemma UsersView_get_add_users_data_order_witness :
  exists r,
    UsersView_get_add_users_data (sample_view sample_api spec_handle)
      request_start
    = (Return r,
       State [] [] [(KeystoneTenantGet "t1", true);
                    (KeystoneUserList None, true);
                    (KeystoneUserList (Some "t1"), true)]
             None (Some (SharedData acme [alice; bob; carol] [bob]))) /\
    r `sublist_of` [alice; bob; carol].
Proof.
  apply (UsersView_get_add_users_data_order
           (sample_view sample_api spec_handle) request_start
           (SharedData acme [alice; bob; carol] [bob])).
  reflexivity.
Defined.

(** ** Filling a dictionary field by field *)

Lemma for_each_setitem (fields : list string) (f : string -> value)
    (d : gmap string value) (s : state) :
  for_each fields (fun field => setitem field (f field)) (d, s)
  = (Return tt, (fill_fields fields f d, s)).
Proof.
  revert d. induction fields as [|k fields IH]; intros d; [reflexivity|].
  change (for_each (k :: fields) (fun field => setitem field (f field)) (d, s))
    with ((setitem k (f k) ;;
           for_each fields (fun field => setitem field (f field))) (d, s)).
  unfold bind, setitem at 1. simpl. apply IH.
Qed.

Lemma lookup_fill_fields (fields : list string) (f : string -> value)
    (d : gmap string value) (k : string) :
  fill_fields fields f d !! k
  = if decide (k ∈ fields) then Some (f k) else d !! k.
Proof.
  revert d. induction fields as [|a fields IH]; intros d; simpl.
  - destruct (decide (k ∈ [])) as [Hin|_]; [|reflexivity].
    apply elem_of_nil in Hin. contradiction.
  - unfold fill_fields in *. simpl. rewrite IH.
    destruct (decide (k ∈ fields)) as [Hin|Hnin].
    + rewrite decide_True by (right; exact Hin). reflexivity.
    + destruct (decide (k = a)) as [->|Hne].
      * rewrite decide_True by left. apply lookup_insert_eq.
      * rewrite decide_False.
        -- apply lookup_insert_ne. congruence.
        -- intros Hin. apply elem_of_cons in Hin as [?|?]; contradiction.
Qed.

Lemma getattr_absent (o : obj) (name : string) :
  name <> "id" -> attrs o !! name = None -> getattr o name VNone = VNone.
Proof.
  intros Hne Hnone. unfold getattr.
  destruct (String.eqb_spec name "id") as [->|_]; [contradiction|].
  rewrite Hnone. reflexivity.
Qed.

Lemma getattr_present (o : obj) (name : string) (v : value) :
  name <> "id" -> attrs o !! name = Some v -> getattr o name VNone = v.
Proof.
  intros Hne Hsome. unfold getattr.
  destruct (String.eqb_spec name "id") as [->|_]; [contradiction|].
  rewrite Hsome. reflexivity.
Qed.

(** ** [UpdateProjectView.get_initial] *)

Lemma UpdateProjectView_get_initial_ok self s project_info quota_data :
  let project_id := kw_tenant_id (kwargs self) in
  tenant_get (api self) (api_log s) project_id = Return project_info ->
  tenant_quota_get (api self) (api_log s ++ [(TenantGet project_id, true)])
                   project_id = Return quota_data ->
  UpdateProjectView_get_initial self s =
    (Return (fill_fields QUOTA_FIELDS (fun f => getattr quota_data f VNone)
               (fill_fields PROJECT_INFO_FIELDS
                  (fun f => getattr project_info f VNone)
                  (<["project_id" := VStr project_id]>
                     (super_get_initial self)))),
     set_api_log (api_log s ++ [(TenantGet project_id, true);
                                (TenantQuotaGet project_id, true)]) s).
Proof.
  intros project_id Hinfo Hquota. subst project_id.
  unfold UpdateProjectView_get_initial.
  py_unfold. unfold setitem at 1. simpl.
  rewrite Hinfo. simpl. rewrite ?for_each_setitem. simpl.
  rewrite Hquota. simpl. rewrite ?for_each_setitem. simpl.
  rewrite <- app_assoc. reflexivity.
Qed.

Lemma project_info_field_not_quota (f : string) :
  f ∈ PROJECT_INFO_FIELDS -> f ∉ QUOTA_FIELDS.
Proof.
  intros Hf. unfold PROJECT_INFO_FIELDS in Hf. in_fields Hf; decide_closed.
Qed.

Lemma form_field_not_id (f : string) :
  f ∈ PROJECT_INFO_FIELDS ++ QUOTA_FIELDS -> f <> "id".
Proof.
  intros Hf. unfold PROJECT_INFO_FIELDS, QUOTA_FIELDS in Hf. simpl in Hf.
  in_fields Hf; discriminate.
Qed.

Lemma form_field_not_project_id :
  ("project_id" ∉ PROJECT_INFO_FIELDS) /\ ("project_id" ∉ QUOTA_FIELDS).
Proof. split; decide_closed. Qed.

(** C5: when both fetches succeed, [UpdateProjectView.get_initial] returns
    a dictionary in which each of [name], [description] and [enabled] is
    the attribute of the fetched project, each of the nine quota fields is
    the attribute of the fetched quota, an attribute the fetched object
    lacks is [None], and every other key is as it was before the fetch. *)
Theorem UpdateProjectView_get_initial_fields self s project_info quota_data :
  tenant_get (api self) (api_log s) (kw_tenant_id (kwargs self))
    = Return project_info ->
  tenant_quota_get (api self)
    (api_log s ++ [(TenantGet (kw_tenant_id (kwargs self)), true)])
    (kw_tenant_id (kwargs self)) = Return quota_data ->
  exists initial s',
    UpdateProjectView_get_initial self s = (Return initial, s') /\
    (forall f, f ∈ PROJECT_INFO_FIELDS ->
       initial !! f = Some (getattr project_info f VNone) /\
       (forall v, attrs project_info !! f = Some v -> initial !! f = Some v) /\
       (attrs project_info !! f = None -> initial !! f = Some VNone)) /\
    (forall f, f ∈ QUOTA_FIELDS ->
       initial !! f = Some (getattr quota_data f VNone) /\
       (forall v, attrs quota_data !! f = Some v -> initial !! f = Some v) /\
       (attrs quota_data !! f = None -> initial !! f = Some VNone)) /\
    (forall k, k ∉ PROJECT_INFO_FIELDS ++ QUOTA_FIELDS ->
       initial !! k
       = (<["project_id" := VStr (kw_tenant_id (kwargs self))]>
            (super_get_initial self)) !! k).
Proof.
  intros Hinfo Hquota. eexists _, _.
  split; [apply UpdateProjectView_get_initial_ok; eassumption|].
  split; [|split].
  - intros f Hf.
    assert (Hval : fill_fields QUOTA_FIELDS (fun f => getattr quota_data f VNone)
               (fill_fields PROJECT_INFO_FIELDS
                  (fun f => getattr project_info f VNone)
                  (<["project_id" := VStr (kw_tenant_id (kwargs self))]>
                     (super_get_initial self))) !! f
             = Some (getattr project_info f VNone)).
    { rewrite lookup_fill_fields.
      rewrite decide_False by (apply project_info_field_not_quota; exact Hf).
      rewrite lookup_fill_fields. rewrite decide_True by exact Hf. reflexivity. }
    assert (Hid : f <> "id")
      by (apply form_field_not_id, elem_of_app; left; exact Hf).
    split; [exact Hval|]. split.
    + intros v Hv. rewrite Hval. f_equal. apply getattr_present; assumption.
    + intros Hnone. rewrite Hval. f_equal. apply getattr_absent; assumption.
  - intros f Hf.
    assert (Hval : fill_fields QUOTA_FIELDS (fun f => getattr quota_data f VNone)
               (fill_fields PROJECT_INFO_FIELDS
                  (fun f => getattr project_info f VNone)
                  (<["project_id" := VStr (kw_tenant_id (kwargs self))]>
                     (super_get_initial self))) !! f
             = Some (getattr quota_data f VNone)).
    { rewrite lookup_fill_fields. rewrite decide_True by exact Hf. reflexivity. }
    assert (Hid : f <> "id")
      by (apply form_field_not_id, elem_of_app; right; exact Hf).
    split; [exact Hval|]. split.
    + intros v Hv. rewrite Hval. f_equal. apply getattr_present; assumption.
    + intros Hnone. rewrite Hval. f_equal. apply getattr_absent; assumption.
  - intros k Hk. rewrite elem_of_app in Hk.
    rewrite lookup_fill_fields. rewrite decide_False by tauto.
    rewrite lookup_fill_fields. rewrite decide_False by tauto. reflexivity.
Qed.

Lemma UpdateProjectView_get_initial_fields_witness :
  let self := sample_view sample_api spec_handle in
  exists initial s',
    UpdateProjectView_get_initial self request_start = (Return initial, s') /\
    (forall f, f ∈ PROJECT_INFO_FIELDS ->
       initial !! f = Some (getattr acme f VNone) /\
       (forall v, attrs acme !! f = Some v -> initial !! f = Some v) /\
       (attrs acme !! f = None -> initial !! f = Some VNone)) /\
    (forall f, f ∈ QUOTA_FIELDS ->
       initial !! f = Some (getattr acme_quota f VNone) /\
       (forall v, attrs acme_quota !! f = Some v -> initial !! f = Some v) /\
       (attrs acme_quota !! f = None -> initial !! f = Some VNone)) /\
    (forall k, k ∉ PROJECT_INFO_FIELDS ++ QUOTA_FIELDS ->
       initial !! k
       = (<["project_id" := VStr "t1"]> (super_get_initial self)) !! k).
Proof.
  intros self.
  apply (UpdateProjectView_get_initial_fields self request_start acme acme_quota);
    reflexivity.
Defined.

(** C10: whenever [UpdateProjectView.get_initial] returns, whatever the
    client answered and whatever the error handler did, the dictionary it
    returns binds ['project_id'] to the [tenant_id] of the URL arguments. *)
Theorem UpdateProjectView_get_initial_project_id self s initial s' :
  UpdateProjectView_get_initial self s = (Return initial, s') ->
  initial !! "project_id" = Some (VStr (kw_tenant_id (kwargs self))).
Proof.
  destruct form_field_not_project_id as [Hinfo Hquota].
  unfold UpdateProjectView_get_initial. py_unfold. unfold setitem at 1.
  simpl. intros H.
  repeat (first [rewrite for_each_setitem in * | py_case];
          simpl in *; py_inv);
    rewrite ?lookup_fill_fields;
    rewrite ?decide_False by assumption;
    rewrite ?lookup_insert_ne by discriminate;
    apply lookup_insert_eq.
Qed.

Lemma UpdateProjectView_get_initial_project_id_witness :
  let self := sample_view failing_api lenient_handle in
  let s' := State ["Unable to retrieve project details."] []
                  [(TenantGet "t1", false)] None None in
  UpdateProjectView_get_initial self request_start
    = (Return (<["project_id" := VStr "t1"]> ∅), s') /\
  (<["project_id" := VStr "t1"]> ∅ : gmap string value) !! "project_id"
    = Some (VStr "t1").
Proof.
  intros self s'.
  assert (Hrun : UpdateProjectView_get_initial self request_start
                 = (Return (<["project_id" := VStr "t1"]> ∅), s'))
    by reflexivity.
  split; [exact Hrun|].
  exact (UpdateProjectView_get_initial_project_id self request_start _ s' Hrun).
Defined.

(** ** Failed calls, operation by operation *)

Ltac failed_call_cases H Hc :=
  py_unfold; unfold spec_handle in *; simpl in *;
  repeat (first [rewrite for_each_setitem in H | py_case];
          simpl in *; py_inv);
  (erewrite new_calls_app in Hc
     by first [symmetry; apply app_nil_r
              |simpl; rewrite <- ?app_assoc; reflexivity]);
  simpl in Hc;
  repeat (apply elem_of_cons in Hc as [Hc|Hc]; [try discriminate Hc|]);
  try (apply elem_of_nil in Hc; contradiction).

(** C4, as amended: under the error handler of the spec, every operation
    whose calls are made inside a [try] treats a failed call as its entry
    of [failure_treatment] says: [IndexView.get_data] adds a flash message
    and returns the empty list; [CreateProjectView.get_initial] attaches
    the error to the [update_quotas] step, adds no flash message and
    returns the initial values of the base class; the others add a flash
    message and redirect, to the users page of the tenant for
    [AddUserView.get_form_kwargs] and to the project index otherwise. *)
Theorem failed_call_treatment self op t s r s' :
  failure_treatment self op = Some t ->
  perform (with_spec_handle self) op s = (r, s') ->
  api_failed s s' ->
  treated t s r s'.
Proof.
  intros Ht H [c Hc].
  destruct op; simpl in Ht; py_inv;
    unfold perform, TenantContextMixin_get_context_data,
      AddUserView_get_context_data, TenantContextMixin_get_context_data,
      TenantContextMixin_get_object, IndexView_get_data,
      UsersView_get_tenant_users_data, UsersView_get_add_users_data,
      UsersView_get_context_data, UsersView__get_shared_data,
      AddUserView_get_form_kwargs, CreateProjectView_get_initial,
      UpdateProjectView_get_initial in H;
    try unfold setitem at 1 in H;
    failed_call_cases H Hc;
    unfold treated; repeat split; reflexivity.
Qed.

Lemma failed_call_treatment_witness :
  let self := sample_view failing_api lenient_handle in
  let s' := State ["Unable to retrieve users."] []
                  [(KeystoneTenantGet "t1", false)] None None in
  perform (with_spec_handle self) Op_UsersView_get_add_users_data request_start
    = (Raise (Http302 index_url), s') /\
  api_failed request_start s' /\
  treated (Redirect index_url "Unable to retrieve users.")
          request_start (Raise (Http302 index_url)) s'.
Proof.
  intros self s'.
  assert (Hrun : perform (with_spec_handle self) Op_UsersView_get_add_users_data
                   request_start = (Raise (Http302 index_url), s'))
    by reflexivity.
  assert (Hfail : api_failed request_start s').
  { exists (KeystoneTenantGet "t1"). unfold new_calls. simpl. left. }
  split; [exact Hrun|]. split; [exact Hfail|].
  exact (failed_call_treatment self Op_UsersView_get_add_users_data _
           request_start _ s' eq_refl Hrun Hfail).
Defined.

(** What the operations outside the uniform policy do when the client is
    down. *)
Example AddUserView_get_initial_client_down :
  AddUserView_get_initial (sample_view failing_api spec_handle) request_start
  = (Raise (ClientError "unavailable"),
     State [] [] [(KeystoneGetDefaultRole, false)] None None).
Proof. reflexivity. Qed.

Example CreateProjectView_get_initial_client_down :
  CreateProjectView_get_initial (sample_view failing_api spec_handle)
    request_start
  = (Return ∅,
     State [] [("update_quotas", "Unable to retrieve default quota values.")]
           [(TenantQuotaDefaults "t0", false)] None None).
Proof. reflexivity. Qed.

(** C4, as stated, fails: with the client down, [AddUserView.get_initial]
    lets the exception of the client escape, and
    [CreateProjectView.get_initial] adds no flash message. *)
Lemma uniform_policy_fails :
  ~ uniform_policy (sample_view failing_api spec_handle)
      Op_AddUserView_get_initial request_start /\
  ~ uniform_policy (sample_view failing_api spec_handle)
      Op_CreateProjectView_get_initial request_start.
Proof.
  split.
  - intros Hp.
    destruct (Hp (Raise (ClientError "unavailable"))
                 (State [] [] [(KeystoneGetDefaultRole, false)] None None)
                 eq_refl) as [_ [Hret|(u & Hu & _)]].
    + exists KeystoneGetDefaultRole. unfold new_calls. simpl. left.
    + discriminate Hret.
    + discriminate Hu.
  - intros Hp.
    destruct (Hp (Return (RInitial ∅))
                 (State [] [("update_quotas",
                             "Unable to retrieve default quota values.")]
                        [(TenantQuotaDefaults "t0", false)] None None)
                 eq_refl) as [[m Hm] _].
    + exists (TenantQuotaDefaults "t0"). unfold new_calls. simpl. left.
    + simpl in Hm. discriminate Hm.
Qed.

(** ** The form-prefill views *)

(** C6, as amended: [CreateProjectView.get_initial] surfaces a failed fetch
    of the quota defaults as an error on the [update_quotas] step and
    returns the initial values of the base class;
    [UpdateProjectView.get_initial], under the error handler of the spec,
    adds a flash message and redirects to the project index instead. *)
Theorem prefill_failed_fetch self s :
  (forall r s',
     CreateProjectView_get_initial self s = (r, s') ->
     api_failed s s' ->
     r = Return (super_get_initial self) /\
     step_errors s' = step_errors s
                      ++ [("update_quotas",
                           "Unable to retrieve default quota values.")] /\
     messages s' = messages s) /\
  (forall r s',
     UpdateProjectView_get_initial (with_spec_handle self) s = (r, s') ->
     api_failed s s' ->
     r = Raise (Http302 index_url) /\
     messages s' = messages s ++ ["Unable to retrieve project details."] /\
     step_errors s' = step_errors s).
Proof.
  split; intros r s' H [c Hc].
  - unfold CreateProjectView_get_initial in H.
    failed_call_cases H Hc. repeat split; reflexivity.
  - unfold UpdateProjectView_get_initial in H. unfold setitem at 1 in H.
    failed_call_cases H Hc; repeat split; reflexivity.
Qed.

Lemma prefill_failed_fetch_witness :
  let self := sample_view failing_api lenient_handle in
  let created := State [] [("update_quotas",
                            "Unable to retrieve default quota values.")]
                       [(TenantQuotaDefaults "t0", false)] None None in
  let updated := State ["Unable to retrieve project details."] []
                       [(TenantGet "t1", false)] None None in
  (CreateProjectView_get_initial self request_start = (Return ∅, created) /\
   api_failed request_start created /\
   step_errors created = [("update_quotas",
                           "Unable to retrieve default quota values.")] /\
   messages created = []) /\
  (UpdateProjectView_get_initial (with_spec_handle self) request_start
     = (Raise (Http302 index_url), updated) /\
   api_failed request_start updated /\
   messages updated = ["Unable to retrieve project details."] /\
   step_errors updated = []).
Proof.
  intros self created updated.
  destruct (prefill_failed_fetch self request_start) as [Hcreate Hupdate].
  assert (Hc : api_failed request_start created).
  { exists (TenantQuotaDefaults "t0"). unfold new_calls. simpl. left. }
  assert (Hu : api_failed request_start updated).
  { exists (TenantGet "t1"). unfold new_calls. simpl. left. }
  split.
  - destruct (Hcreate (Return ∅) created eq_refl Hc) as (_ & Hsteps & Hmsgs).
    split; [reflexivity|]. split; [exact Hc|]. split; [exact Hsteps|exact Hmsgs].
  - destruct (Hupdate (Raise (Http302 index_url)) updated eq_refl Hu)
      as (_ & Hmsgs & Hsteps).
    split; [reflexivity|]. split; [exact Hu|]. split; [exact Hmsgs|exact Hsteps].
Defined.

(** C6, as stated, fails: with the client down,
    [UpdateProjectView.get_initial] attaches no error to any step; it
    redirects to the project index. *)
Lemma update_failure_is_not_a_step_error :
  ~ surfaced_as_step_error (sample_view failing_api spec_handle)
      Op_UpdateProjectView_get_initial request_start.
Proof.
  intros Hp.
  destruct (Hp (Raise (Http302 index_url))
               (State ["Unable to retrieve project details."] []
                      [(TenantGet "t1", false)] None None)
               eq_refl) as (v & step & m & Hret & _).
  - exists (TenantGet "t1"). unfold new_calls. simpl. left.
  - discriminate Hret.
Qed.

(** * Further properties of the views *)

(** ** [list.sort] is stable and its outcome is canonical *)

Section ListSortMore.
Context {A : Type} (key : A -> string).

Lemma filter_rev (P : A -> Prop) `{!forall x, Decision (P x)} (l : list A) :
  filter P (rev l) = rev (filter P l).
Proof.
  induction l as [|x l IH]; [reflexivity|].
  simpl. rewrite filter_app, IH, filter_cons.
  destruct (decide (P x)); simpl.
  - rewrite filter_cons_True by assumption. rewrite filter_nil. reflexivity.
  - rewrite filter_cons_False by assumption. rewrite filter_nil.
    apply app_nil_r.
Qed.

Lemma insert_by_filter_key (x : A) (l : list A) (k : string) :
  filter (fun y => key y = k) (insert_by key x l)
  = filter (fun y => key y = k) (x :: l).
Proof.
  induction l as [|y l IH]; [reflexivity|]. simpl.
  destruct (String.leb (key x) (key y)) eqn:Hxy; [reflexivity|].
  rewrite filter_cons, IH, !filter_cons.
  destruct (decide (key y = k)) as [Hy|Hy];
    destruct (decide (key x = k)) as [Hx|Hx]; try reflexivity.
  exfalso. rewrite Hx, <- Hy in Hxy.
  destruct (String.leb_total (key y) (key y)); congruence.
Qed.

Lemma sort_asc_filter_key (l : list A) (k : string) :
  filter (fun y => key y = k) (sort_asc key l)
  = filter (fun y => key y = k) l.
Proof.
  induction l as [|x l IH]; [reflexivity|]. simpl.
  rewrite insert_by_filter_key, !filter_cons, IH. reflexivity.
Qed.

Lemma list_sort_stable (reverse : bool) (l : list A) (k : string) :
  filter (fun y => key y = k) (list_sort key reverse l)
  = filter (fun y => key y = k) l.
Proof.
  unfold list_sort. destruct reverse.
  - rewrite filter_rev, sort_asc_filter_key, filter_rev. apply rev_involutive.
  - apply sort_asc_filter_key.
Qed.

Lemma sorted_perm_unique (R : A -> A -> Prop) :
  (forall x y, R x y -> R y x -> key x = key y) ->
  forall l1 l2,
    StronglySorted R l1 -> StronglySorted R l2 ->
    Permutation l1 l2 -> NoDup (map key l1) -> l1 = l2.
Proof.
  intros Hanti. induction l1 as [|x l1 IH]; intros l2 Hs1 Hs2 Hperm Hnd.
  - apply Permutation_nil in Hperm. congruence.
  - destruct l2 as [|y l2].
    { symmetry in Hperm. apply Permutation_nil in Hperm. discriminate. }
    apply StronglySorted_inv in Hs1 as [Hs1 Hx].
    apply StronglySorted_inv in Hs2 as [Hs2 Hy].
    simpl in Hnd. apply NoDup_cons in Hnd as [Hxnotin Hnd].
    assert (Hxy : x = y).
    { assert (Hxin : x ∈ y :: l2) by (rewrite <- Hperm; left).
      assert (Hyin : y ∈ x :: l1) by (rewrite Hperm; left).
      apply elem_of_cons in Hxin as [Hxin|Hxin]; [exact Hxin|].
      apply elem_of_cons in Hyin as [Hyin|Hyin]; [congruence|].
      exfalso. apply Hxnotin.
      rewrite (Hanti x y).
      - apply list_elem_of_fmap. exists y. split; [reflexivity|exact Hyin].
      - rewrite Forall_forall in Hx. apply Hx. exact Hyin.
      - rewrite Forall_forall in Hy. apply Hy. exact Hxin. }
    subst y. f_equal. apply IH; try assumption.
    eapply Permutation_cons_inv. exact Hperm.
Qed.

Lemma key_le_antisym (x y : A) :
  key_le key x y -> key_le key y x -> key x = key y.
Proof. unfold key_le, StrOrd.le. apply String.leb_antisym. Qed.

Lemma key_ge_antisym (x y : A) :
  key_ge key x y -> key_ge key y x -> key x = key y.
Proof.
  unfold key_ge, StrOrd.ge, StrOrd.le. intros H1 H2.
  apply String.leb_antisym; assumption.
Qed.

Lemma list_sort_canonical (reverse : bool) (l1 l2 : list A) :
  Permutation l1 l2 -> NoDup (map key l1) ->
  list_sort key reverse l1 = list_sort key reverse l2.
Proof.
  intros Hperm Hnd.
  assert (Hp : Permutation (list_sort key reverse l1) (list_sort key reverse l2)).
  { rewrite <- !list_sort_perm. exact Hperm. }
  assert (Hn : NoDup (map key (list_sort key reverse l1))).
  { assert (Hm : Permutation (map key l1) (map key (list_sort key reverse l1)))
      by (apply Permutation_map, list_sort_perm).
    rewrite <- Hm. exact Hnd. }
  destruct reverse.
  - eapply (sorted_perm_unique (key_ge key)); try eassumption.
    + apply key_ge_antisym.
    + apply list_sort_descending.
    + apply list_sort_descending.
  - eapply (sorted_perm_unique (key_le key)); try eassumption.
    + apply key_le_antisym.
    + apply list_sort_ascending.
    + apply list_sort_ascending.
Qed.

End ListSortMore.

(** ** [IndexView.get_data], further *)

(** X1: tenants that share an id keep, in the listing, the order in which
    the client returned them. *)
Theorem IndexView_get_data_stable self s tenants :
  keystone_tenant_list (api self) (api_log s) = Return tenants ->
  exists r s',
    IndexView_get_data self s = (Return r, s') /\
    forall k, filter (fun t => id t = k) r = filter (fun t => id t = k) tenants.
Proof.
  intros Hcall. eexists _, _.
  split; [apply IndexView_get_data_ok; exact Hcall|].
  intros k. apply list_sort_stable.
Qed.

Lemma IndexView_get_data_stable_witness :
  exists r s',
    IndexView_get_data (sample_view repeated_id_api spec_handle) request_start
      = (Return r, s') /\
    forall k, filter (fun t => id t = k) r
              = filter (fun t => id t = k) [acme; globex; acme_old].
Proof.
  apply (IndexView_get_data_stable
           (sample_view repeated_id_api spec_handle) request_start).
  reflexivity.
Defined.

Example IndexView_get_data_repeated_id :
  fst (IndexView_get_data (sample_view repeated_id_api spec_handle)
         request_start)
  = Return [globex; acme; acme_old].
Proof. reflexivity. Qed.

(** X2: when the tenant ids are distinct, the listing does not depend on
    the order in which the client returned the tenants. *)
Theorem IndexView_get_data_order_independent
    self1 s1 self2 s2 tenants1 tenants2 :
  keystone_tenant_list (api self1) (api_log s1) = Return tenants1 ->
  keystone_tenant_list (api self2) (api_log s2) = Return tenants2 ->
  Permutation tenants1 tenants2 ->
  NoDup (map id tenants1) ->
  fst (IndexView_get_data self1 s1) = fst (IndexView_get_data self2 s2).
Proof.
  intros H1 H2 Hperm Hnd.
  rewrite (IndexView_get_data_ok _ _ _ H1), (IndexView_get_data_ok _ _ _ H2).
  cbn [fst]. f_equal. apply list_sort_canonical; assumption.
Qed.

Lemma IndexView_get_data_order_independent_witness :
  fst (IndexView_get_data (sample_view sample_api spec_handle) request_start)
  = fst (IndexView_get_data (sample_view reordered_api spec_handle)
           request_start).
Proof.
  apply (IndexView_get_data_order_independent
           (sample_view sample_api spec_handle) request_start
           (sample_view reordered_api spec_handle) request_start
           [acme; globex; initech] [initech; acme; globex]).
  - reflexivity.
  - reflexivity.
  - apply (Permutation_app_comm [acme; globex] [initech]).
  - decide_closed.
Defined.

(** X3: every run of [IndexView.get_data] issues exactly one call, the
    tenant listing, whatever is cached; it leaves the cached attributes and
    the step errors as they are; and after a failed call it returns the
    empty list whenever the error handler returns. *)
Theorem IndexView_get_data_one_call self s r s' :
  IndexView_get_data self s = (r, s') ->
  new_calls s s'
    = [(KeystoneTenantList,
        is_return (keystone_tenant_list (api self) (api_log s)))] /\
  _object s' = _object s /\
  _shared_data s' = _shared_data s /\
  step_errors s' = step_errors s /\
  (forall e flash,
     keystone_tenant_list (api self) (api_log s) = Raise e ->
     handle self e "Unable to retrieve project list." None (messages s)
       = (Return tt, flash) ->
     r = Return [] /\ messages s' = flash).
Proof.
  unfold IndexView_get_data. py_unfold. intros H.
  repeat (py_case; simpl in *; py_inv);
    (split; [apply new_calls_app; reflexivity|]);
    do 3 (split; [reflexivity|]);
    intros e' flash' He Hh; py_inv; try discriminate;
    rewrite Hh in *; py_inv; split; reflexivity.
Qed.

Lemma IndexView_get_data_one_call_witness :
  let self := sample_view failing_api lenient_handle in
  let s' := State ["Unable to retrieve project list."] []
                  [(KeystoneTenantList, false)] None None in
  IndexView_get_data self request_start = (Return [], s') /\
  new_calls request_start s' = [(KeystoneTenantList, false)].
Proof.
  intros self s'.
  assert (Hrun : IndexView_get_data self request_start = (Return [], s'))
    by reflexivity.
  split; [exact Hrun|].
  exact (proj1 (IndexView_get_data_one_call self request_start _ s' Hrun)).
Defined.

(** ** [TenantContextMixin] *)

Lemma TenantContextMixin_get_object_cached self s o :
  _object s = Some o ->
  TenantContextMixin_get_object self s = (Return o, s).
Proof.
  intros Hc. unfold TenantContextMixin_get_object. py_unfold.
  rewrite Hc. simpl. rewrite Hc. reflexivity.
Qed.

Lemma TenantContextMixin_get_object_caches self s o s1 :
  TenantContextMixin_get_object self s = (Return o, s1) ->
  _object s1 = Some o.
Proof.
  unfold TenantContextMixin_get_object. py_unfold. intros H.
  repeat (py_case; simpl in *; py_inv); try assumption; reflexivity.
Qed.

Lemma TenantContextMixin_get_object_calls self s r s1 :
  TenantContextMixin_get_object self s = (r, s1) ->
  map fst (new_calls s s1)
    `prefix_of` [KeystoneTenantGet (kw_tenant_id (kwargs self))] /\
  (is_Some (_object s) -> new_calls s s1 = []) /\
  _shared_data s1 = _shared_data s.
Proof.
  unfold TenantContextMixin_get_object. py_unfold. intros H.
  repeat (py_case; simpl in *; py_inv);
    match goal with
    | |- context [new_calls ?a ?b] =>
        erewrite (new_calls_app a b);
        [|first [symmetry; apply app_nil_r
                |simpl; rewrite <- ?app_assoc; reflexivity]]
    end;
    simpl;
    (split; [|split; [intros [? ?]; congruence|reflexivity]]).
  all: try (by apply prefix_nil).
  all: try (by eexists; reflexivity).
Qed.

Lemma TenantContextMixin_get_context_data_run self s o s1 :
  TenantContextMixin_get_object self s = (Return o, s1) ->
  TenantContextMixin_get_context_data self s
  = (Return (<["tenant" := IObj o]> (super_get_context_data self)), s1).
Proof.
  intros H. unfold TenantContextMixin_get_context_data, bind, ret.
  rewrite H. reflexivity.
Qed.

Lemma AddUserView_get_context_data_run self s o s1 :
  TenantContextMixin_get_object self s = (Return o, s1) ->
  AddUserView_get_context_data self s
  = (Return (<["user_id" := IVal (VStr (kw_user_id (kwargs self)))]>
               (<["tenant_id" := IVal (VStr (kw_tenant_id (kwargs self)))]>
                  (<["tenant" := IObj o]> (super_get_context_data self)))),
     s1).
Proof.
  intros H. unfold AddUserView_get_context_data, bind, ret.
  rewrite (TenantContextMixin_get_context_data_run _ _ _ _ H). reflexivity.
Qed.

(** X4: [TenantContextMixin.get_object] fetches the tenant of the URL at
    most once: a run issues at most the one [tenant_get] call and none when
    a tenant is cached, and once it has returned a tenant every later call,
    and the context builders of the mixin and of [AddUserView], use that
    tenant and leave the state, and so the log of calls, as it is. *)
Theorem TenantContextMixin_get_object_fetches_once self s r s1 :
  TenantContextMixin_get_object self s = (r, s1) ->
  (map fst (new_calls s s1)
     `prefix_of` [KeystoneTenantGet (kw_tenant_id (kwargs self))] /\
   (is_Some (_object s) -> new_calls s s1 = [])) /\
  (forall o, r = Return o ->
     TenantContextMixin_get_object self s1 = (Return o, s1) /\
     TenantContextMixin_get_context_data self s1
       = (Return (<["tenant" := IObj o]> (super_get_context_data self)), s1) /\
     exists ctx, AddUserView_get_context_data self s1 = (Return ctx, s1) /\
                 ctx !! "tenant" = Some (IObj o)).
Proof.
  intros Hrun. split.
  - destruct (TenantContextMixin_get_object_calls _ _ _ _ Hrun)
      as (Hp & Hc & _).
    split; assumption.
  - intros o ->.
    pose proof (TenantContextMixin_get_object_caches _ _ _ _ Hrun) as Hc.
    pose proof (TenantContextMixin_get_object_cached self _ _ Hc) as Hagain.
    split; [exact Hagain|].
    split; [apply TenantContextMixin_get_context_data_run; exact Hagain|].
    eexists. split; [apply AddUserView_get_context_data_run; exact Hagain|].
    rewrite lookup_insert_ne by discriminate.
    rewrite lookup_insert_ne by discriminate.
    apply lookup_insert_eq.
Qed.

Lemma TenantContextMixin_get_object_fetches_once_witness :
  let self := sample_view sample_api spec_handle in
  let s1 := State [] [] [(KeystoneTenantGet "t1", true)] (Some acme) None in
  TenantContextMixin_get_object self request_start = (Return acme, s1) /\
  TenantContextMixin_get_object self s1 = (Return acme, s1) /\
  TenantContextMixin_get_context_data self s1
    = (Return (<["tenant" := IObj acme]> ∅), s1).
Proof.
  intros self s1.
  assert (Hrun : TenantContextMixin_get_object self request_start
                 = (Return acme, s1)) by reflexivity.
  destruct (TenantContextMixin_get_object_fetches_once
              self request_start _ s1 Hrun) as [_ Hlater].
  destruct (Hlater acme eq_refl) as (Hagain & Hctx & _).
  split; [exact Hrun|]. split; [exact Hagain|exact Hctx].
Defined.

(** X5: when the tenant is available, the context built by
    [AddUserView.get_context_data] binds ['tenant'] to it, ['tenant_id'] and
    ['user_id'] to the URL arguments, and keeps every other entry of the
    context of the base class; when [get_object] raises, so does the
    context builder, in the same state. *)
Theorem AddUserView_get_context_data_entries self s :
  (forall o s1,
     TenantContextMixin_get_object self s = (Return o, s1) ->
     exists ctx,
       AddUserView_get_context_data self s = (Return ctx, s1) /\
       ctx !! "tenant" = Some (IObj o) /\
       ctx !! "tenant_id" = Some (IVal (VStr (kw_tenant_id (kwargs self)))) /\
       ctx !! "user_id" = Some (IVal (VStr (kw_user_id (kwargs self)))) /\
       (forall k, k <> "tenant" -> k <> "tenant_id" -> k <> "user_id" ->
                  ctx !! k = super_get_context_data self !! k)) /\
  (forall e s1,
     TenantContextMixin_get_object self s = (Raise e, s1) ->
     AddUserView_get_context_data self s = (Raise e, s1)).
Proof.
  split.
  - intros o s1 Hrun. eexists.
    split; [apply AddUserView_get_context_data_run; exact Hrun|].
    split; [|split; [|split]].
    + rewrite !lookup_insert_ne by discriminate. apply lookup_insert_eq.
    + rewrite lookup_insert_ne by discriminate. apply lookup_insert_eq.
    + apply lookup_insert_eq.
    + intros k H1 H2 H3. rewrite !lookup_insert_ne by congruence. reflexivity.
  - intros e s1 Hrun.
    unfold AddUserView_get_context_data, TenantContextMixin_get_context_data,
      bind.
    rewrite Hrun. reflexivity.
Qed.

Lemma AddUserView_get_context_data_entries_witness :
  let self := sample_view sample_api spec_handle in
  let s1 := State [] [] [(KeystoneTenantGet "t1", true)] (Some acme) None in
  exists ctx,
    AddUserView_get_context_data self request_start = (Return ctx, s1) /\
    ctx !! "tenant" = Some (IObj acme) /\
    ctx !! "tenant_id" = Some (IVal (VStr "t1")) /\
    ctx !! "user_id" = Some (IVal (VStr "u1")) /\
    (forall k, k <> "tenant" -> k <> "tenant_id" -> k <> "user_id" ->
               ctx !! k = super_get_context_data self !! k).
Proof.
  intros self s1.
  apply (proj1 (AddUserView_get_context_data_entries self request_start)
           acme s1).
  reflexivity.
Defined.

(** ** After a failed fetch, with any error handler *)

Ltac handler_returned Hret :=
  first
    [ reflexivity
    | match goal with
      | Hh : handle _ ?e ?m ?u ?f = _ |- _ =>
          specialize (Hret e m u f); rewrite Hh in Hret; discriminate Hret
      end ].

(** X6: a failed fetch never makes [TenantContextMixin.get_object] return:
    nothing is cached, and the call raises; when the error handler returns
    instead of raising, what is raised is the [AttributeError] of the
    [_object] attribute that was never set. *)
Theorem TenantContextMixin_get_object_failed self s r s1 :
  TenantContextMixin_get_object self s = (r, s1) ->
  api_failed s s1 ->
  _object s1 = None /\
  exists e,
    r = Raise e /\
    ((forall e0 m u f, fst (handle self e0 m u f) = Return tt) ->
     e = AttributeError "_object").
Proof.
  intros H [c Hc]. unfold TenantContextMixin_get_object in H.
  failed_call_cases H Hc; try (simpl in *; congruence);
    (split; [assumption|]); eexists; (split; [reflexivity|]);
    intros Hret; handler_returned Hret.
Qed.

Lemma TenantContextMixin_get_object_failed_witness :
  let self := sample_view failing_api lenient_handle in
  let s1 := State ["Unable to retrieve project information."] []
                  [(KeystoneTenantGet "t1", false)] None None in
  TenantContextMixin_get_object self request_start
    = (Raise (AttributeError "_object"), s1) /\
  api_failed request_start s1 /\
  _object s1 = None.
Proof.
  intros self s1.
  assert (Hrun : TenantContextMixin_get_object self request_start
                 = (Raise (AttributeError "_object"), s1)) by reflexivity.
  assert (Hfail : api_failed request_start s1).
  { exists (KeystoneTenantGet "t1"). unfold new_calls. simpl. left. }
  split; [exact Hrun|]. split; [exact Hfail|].
  exact (proj1 (TenantContextMixin_get_object_failed
                  self request_start _ s1 Hrun Hfail)).
Defined.

(** X7: a failed fetch never makes [UsersView._get_shared_data] return:
    nothing is cached, the failed call is the last one issued (the fetches
    after it are skipped), and the call raises; when the error handler
    returns instead of raising, what is raised is the [AttributeError] of
    the [_shared_data] attribute that was never set. *)
Theorem UsersView__get_shared_data_failed self s r s1 :
  UsersView__get_shared_data self s = (r, s1) ->
  api_failed s s1 ->
  _shared_data s1 = None /\
  (exists done c,
     new_calls s s1 = map (fun c' => (c', true)) done ++ [(c, false)]) /\
  exists e,
    r = Raise e /\
    ((forall e0 m u f, fst (handle self e0 m u f) = Return tt) ->
     e = AttributeError "_shared_data").
Proof.
  intros H [c Hc]. unfold UsersView__get_shared_data in H.
  failed_call_cases H Hc; try (simpl in *; congruence);
    (split; [assumption|]);
    (split;
     [erewrite new_calls_app
        by (simpl; rewrite <- ?app_assoc; reflexivity);
      first [ exists []; eexists; reflexivity
            | eexists [_]; eexists; reflexivity
            | eexists [_; _]; eexists; reflexivity ]
     |]);
    eexists; (split; [reflexivity|]);
    intros Hret; handler_returned Hret.
Qed.

Lemma UsersView__get_shared_data_failed_witness :
  let self := sample_view quota_down_api lenient_handle in
  let s1 := State ["Unable to retrieve users."] []
                  [(KeystoneTenantGet "t1", true);
                   (KeystoneUserList None, true);
                   (KeystoneUserList (Some "t1"), false)] None None in
  UsersView__get_shared_data self request_start
    = (Raise (AttributeError "_shared_data"), s1) /\
  api_failed request_start s1 /\
  _shared_data s1 = None.
Proof.
  intros self s1.
  assert (Hrun : UsersView__get_shared_data self request_start
                 = (Raise (AttributeError "_shared_data"), s1))
    by reflexivity.
  assert (Hfail : api_failed request_start s1).
  { exists (KeystoneUserList (Some "t1")). unfold new_calls. simpl.
    right. right. left. }
  split; [exact Hrun|]. split; [exact Hfail|].
  exact (proj1 (UsersView__get_shared_data_failed
                  self request_start _ s1 Hrun Hfail)).
Defined.

(** X8: a failed fetch of the roles never makes
    [AddUserView.get_form_kwargs] return; when the error handler returns
    instead of raising, what is raised is the [UnboundLocalError] of the
    local variable [roles], which was never assigned. *)
Theorem AddUserView_get_form_kwargs_failed self s r s1 :
  AddUserView_get_form_kwargs self s = (r, s1) ->
  api_failed s s1 ->
  exists e,
    r = Raise e /\
    ((forall e0 m u f, fst (handle self e0 m u f) = Return tt) ->
     e = UnboundLocalError "roles").
Proof.
  intros H [c Hc]. unfold AddUserView_get_form_kwargs in H.
  failed_call_cases H Hc; try (simpl in *; congruence);
    eexists; (split; [reflexivity|]);
    intros Hret; handler_returned Hret.
Qed.

Lemma AddUserView_get_form_kwargs_failed_witness :
  let self := sample_view failing_api lenient_handle in
  let s1 := State ["Unable to retrieve roles."] []
                  [(KeystoneRoleList, false)] None None in
  AddUserView_get_form_kwargs self request_start
    = (Raise (UnboundLocalError "roles"), s1) /\
  api_failed request_start s1 /\
  exists e,
    (Raise (UnboundLocalError "roles") : outcome (gmap string item))
      = Raise e /\
    ((forall e0 m u f, fst (handle self e0 m u f) = Return tt) ->
     e = UnboundLocalError "roles").
Proof.
  intros self s1.
  assert (Hrun : AddUserView_get_form_kwargs self request_start
                 = (Raise (UnboundLocalError "roles"), s1)) by reflexivity.
  assert (Hfail : api_failed request_start s1).
  { exists KeystoneRoleList. unfold new_calls. simpl. left. }
  split; [exact Hrun|]. split; [exact Hfail|].
  exact (AddUserView_get_form_kwargs_failed self request_start _ s1 Hrun Hfail).
Defined.

(** ** The two tables of [UsersView] *)

(** X9: in one request the two tables are computed from the same fetch:
    running [get_tenant_users_data] and then [get_add_users_data] yields
    the fetched tenant users and the addable users; no addable user has the
    id of a user of the tenant, and every fetched user is addable or has
    the id of a user of the tenant. *)
Theorem UsersView_tables_split self s d s1 :
  UsersView__get_shared_data self s = (Return d, s1) ->
  exists addable,
    (tenant_users <- UsersView_get_tenant_users_data self ;;
     add_users <- UsersView_get_add_users_data self ;;
     ret (tenant_users, add_users)) s
    = (Return (sd_tenant_users d, addable), s1) /\
    (forall u v, u ∈ addable -> v ∈ sd_tenant_users d -> id u <> id v) /\
    (forall u, u ∈ sd_all_users d ->
               u ∈ addable \/ exists v, v ∈ sd_tenant_users d /\ id v = id u).
Proof.
  intros Hrun.
  pose proof (UsersView__get_shared_data_caches _ _ _ _ Hrun) as Hc.
  pose proof (UsersView__get_shared_data_cached self _ _ Hc) as Hagain.
  eexists. split; [|split].
  - unfold bind at 1.
    rewrite (UsersView_get_tenant_users_data_run _ _ _ _ Hrun).
    unfold bind at 1.
    rewrite (UsersView_get_add_users_data_run _ _ _ _ Hagain).
    reflexivity.
  - intros u v Hu Hv Heq. apply list_elem_of_filter in Hu as [Hnotin _].
    apply Hnotin. apply list_elem_of_fmap. exists v. split; [exact Heq|exact Hv].
  - intros u Hu.
    destruct (decide (id u ∈ map id (sd_tenant_users d))) as [Hin|Hnotin].
    + right. apply list_elem_of_fmap in Hin as (v & Hid & Hv).
      exists v. split; [exact Hv|symmetry; exact Hid].
    + left. apply list_elem_of_filter. split; assumption.
Qed.

Lemma UsersView_tables_split_witness :
  let self := sample_view sample_api spec_handle in
  let d := SharedData acme [alice; bob; carol] [bob] in
  let s1 := State [] [] [(KeystoneTenantGet "t1", true);
                         (KeystoneUserList None, true);
                         (KeystoneUserList (Some "t1"), true)]
                  None (Some d) in
  exists addable,
    (tenant_users <- UsersView_get_tenant_users_data self ;;
     add_users <- UsersView_get_add_users_data self ;;
     ret (tenant_users, add_users)) request_start
    = (Return ([bob], addable), s1) /\
    (forall u v, u ∈ addable -> v ∈ [bob] -> id u <> id v) /\
    (forall u, u ∈ [alice; bob; carol] ->
               u ∈ addable \/ exists v, v ∈ [bob] /\ id v = id u).
Proof.
  intros self d s1.
  apply (UsersView_tables_split self request_start d s1).
  reflexivity.
Defined.

(** X10: the edge cases of the addable users: with no user in the tenant
    they are all the fetched users, in the fetched order; when every
    fetched user has the id of a user of the tenant (so also when no user
    was fetched) there is none; and they are never more than the fetched
    users. *)
Theorem UsersView_get_add_users_data_edges self s d s1 :
  UsersView__get_shared_data self s = (Return d, s1) ->
  exists addable,
    UsersView_get_add_users_data self s = (Return addable, s1) /\
    (sd_tenant_users d = [] -> addable = sd_all_users d) /\
    ((forall u, u ∈ sd_all_users d -> id u ∈ map id (sd_tenant_users d)) ->
     addable = []) /\
    length addable <= length (sd_all_users d).
Proof.
  intros Hrun. eexists.
  split; [apply UsersView_get_add_users_data_run; exact Hrun|].
  split; [|split].
  - intros ->. simpl.
    induction (sd_all_users d) as [|u l IH]; [reflexivity|].
    rewrite filter_cons_True by apply not_elem_of_nil.
    f_equal. exact IH.
  - intros Hall.
    induction (sd_all_users d) as [|u l IH]; [reflexivity|].
    rewrite filter_cons_False.
    + apply IH. intros v Hv. apply Hall. right. exact Hv.
    + intros Hnot. apply Hnot. apply Hall. left.
  - apply length_filter.
Qed.

Lemma UsersView_get_add_users_data_edges_witness :
  let self := sample_view duplicate_api spec_handle in
  let d := SharedData acme [alice; alice] [] in
  let s1 := State [] [] [(KeystoneTenantGet "t1", true);
                         (KeystoneUserList None, true);
                         (KeystoneUserList (Some "t1"), true)]
                  None (Some d) in
  exists addable,
    UsersView_get_add_users_data self request_start = (Return addable, s1) /\
    (sd_tenant_users d = [] -> addable = [alice; alice]) /\
    ((forall u, u ∈ [alice; alice] -> id u ∈ map id (sd_tenant_users d)) ->
     addable = []) /\
    length addable <= 2.
Proof.
  intros self d s1.
  apply (UsersView_get_add_users_data_edges self request_start d s1).
  reflexivity.
Defined.

(** ** [AddUserView.get_initial] *)

(** X11: when the default role is available, the initial values are the
    three entries ['tenant_id'] and ['user_id'], from the URL arguments,
    and ['role_id'], the id of the default role or [None] when there is no
    default role; no message is added.  When the call fails, the exception
    of the client is raised as it is and no message is added. *)
Theorem AddUserView_get_initial_entries self s :
  (forall role,
     keystone_get_default_role (api self) (api_log s) = Return role ->
     exists initial s',
       AddUserView_get_initial self s = (Return initial, s') /\
       initial !! "tenant_id" = Some (VStr (kw_tenant_id (kwargs self))) /\
       initial !! "user_id" = Some (VStr (kw_user_id (kwargs self))) /\
       initial !! "role_id"
         = Some (match role with Some r => VStr (id r) | None => VNone end) /\
       (forall k, k <> "tenant_id" -> k <> "user_id" -> k <> "role_id" ->
                  initial !! k = None) /\
       messages s' = messages s) /\
  (forall e,
     keystone_get_default_role (api self) (api_log s) = Raise e ->
     exists s',
       AddUserView_get_initial self s = (Raise e, s') /\
       messages s' = messages s /\
       step_errors s' = step_errors s).
Proof.
  split.
  - intros role Hcall. unfold AddUserView_get_initial. py_unfold.
    rewrite Hcall. eexists _, _. split; [reflexivity|].
    split; [apply lookup_insert_eq|].
    split; [rewrite lookup_insert_ne by discriminate; apply lookup_insert_eq|].
    split; [|split; [|reflexivity]].
    + rewrite !lookup_insert_ne by discriminate. rewrite lookup_insert_eq.
      destruct role; reflexivity.
    + intros k H1 H2 H3. rewrite !lookup_insert_ne by congruence.
      apply lookup_empty.
  - intros e Hcall. unfold AddUserView_get_initial. py_unfold.
    rewrite Hcall. eexists. split; [reflexivity|]. split; reflexivity.
Qed.

Lemma AddUserView_get_initial_entries_witness :
  let self := sample_view reordered_api spec_handle in
  exists initial s',
    AddUserView_get_initial self request_start = (Return initial, s') /\
    initial !! "tenant_id" = Some (VStr "t1") /\
    initial !! "user_id" = Some (VStr "u1") /\
    initial !! "role_id" = Some VNone /\
    (forall k, k <> "tenant_id" -> k <> "user_id" -> k <> "role_id" ->
               initial !! k = None) /\
    messages s' = messages request_start.
Proof.
  intros self.
  apply (proj1 (AddUserView_get_initial_entries self request_start) None).
  reflexivity.
Defined.

(** ** [CreateProjectView.get_initial] *)

Lemma CreateProjectView_get_initial_ok self s quota_defaults :
  tenant_quota_defaults (api self) (api_log s) (request_user_tenant_id self)
    = Return quota_defaults ->
  CreateProjectView_get_initial self s =
    (Return (fill_fields QUOTA_FIELDS
               (fun f => getattr quota_defaults f VNone)
               (super_get_initial self)),
     set_api_log
       (api_log s ++ [(TenantQuotaDefaults (request_user_tenant_id self), true)])
       s).
Proof.
  intros Hcall. unfold CreateProjectView_get_initial. py_unfold. simpl.
  rewrite Hcall. simpl. rewrite ?for_each_setitem. reflexivity.
Qed.

(** X12: when the quota defaults of the tenant of the logged-in user are
    available, the initial values of the create-project form bind each of
    the nine quota fields to the attribute of the defaults, [None] when the
    defaults lack it, and keep every other entry of the base class; no
    message or step error is added. *)
Theorem CreateProjectView_get_initial_fields self s quota_defaults :
  tenant_quota_defaults (api self) (api_log s) (request_user_tenant_id self)
    = Return quota_defaults ->
  exists initial s',
    CreateProjectView_get_initial self s = (Return initial, s') /\
    (forall f, f ∈ QUOTA_FIELDS ->
       initial !! f = Some (getattr quota_defaults f VNone) /\
       (forall v, attrs quota_defaults !! f = Some v -> initial !! f = Some v) /\
       (attrs quota_defaults !! f = None -> initial !! f = Some VNone)) /\
    (forall k, k ∉ QUOTA_FIELDS -> initial !! k = super_get_initial self !! k) /\
    messages s' = messages s /\
    step_errors s' = step_errors s.
Proof.
  intros Hcall. eexists _, _.
  split; [apply CreateProjectView_get_initial_ok; exact Hcall|].
  split; [|split; [|split; reflexivity]].
  - intros f Hf.
    assert (Hval : fill_fields QUOTA_FIELDS
                     (fun f => getattr quota_defaults f VNone)
                     (super_get_initial self) !! f
                   = Some (getattr quota_defaults f VNone)).
    { rewrite lookup_fill_fields. rewrite decide_True by exact Hf. reflexivity. }
    assert (Hid : f <> "id")
      by (apply form_field_not_id, elem_of_app; right; exact Hf).
    split; [exact Hval|]. split.
    + intros v Hv. rewrite Hval. f_equal. apply getattr_present; assumption.
    + intros Hnone. rewrite Hval. f_equal. apply getattr_absent; assumption.
  - intros k Hk. rewrite lookup_fill_fields.
    rewrite decide_False by exact Hk. reflexivity.
Qed.

Lemma CreateProjectView_get_initial_fields_witness :
  let self := sample_view sample_api spec_handle in
  exists initial s',
    CreateProjectView_get_initial self request_start = (Return initial, s') /\
    (forall f, f ∈ QUOTA_FIELDS ->
       initial !! f = Some (getattr acme_quota f VNone) /\
       (forall v, attrs acme_quota !! f = Some v -> initial !! f = Some v) /\
       (attrs acme_quota !! f = None -> initial !! f = Some VNone)) /\
    (forall k, k ∉ QUOTA_FIELDS -> initial !! k = super_get_initial self !! k) /\
    messages s' = messages request_start /\
    step_errors s' = step_errors request_start.
Proof.
  intros self.
  apply (CreateProjectView_get_initial_fields self request_start acme_quota).
  reflexivity.
Defined.

(** X13: [CreateProjectView.get_initial] always returns, whatever the
    client answers and whatever the error handler is: it issues exactly one
    call, for the quota defaults of the tenant of the logged-in user, adds
    no flash message, and leaves every entry other than the nine quota
    fields as the base class gave it. *)
Theorem CreateProjectView_get_initial_returns self s :
  exists initial s',
    CreateProjectView_get_initial self s = (Return initial, s') /\
    new_calls s s'
      = [(TenantQuotaDefaults (request_user_tenant_id self),
          is_return (tenant_quota_defaults (api self) (api_log s)
                       (request_user_tenant_id self)))] /\
    messages s' = messages s /\
    (forall k, k ∉ QUOTA_FIELDS -> initial !! k = super_get_initial self !! k).
Proof.
  destruct (tenant_quota_defaults (api self) (api_log s)
              (request_user_tenant_id self)) as [q|e] eqn:Hcall.
  - eexists _, _.
    split; [apply CreateProjectView_get_initial_ok; exact Hcall|].
    split; [apply new_calls_app; reflexivity|].
    split; [reflexivity|].
    intros k Hk. rewrite lookup_fill_fields.
    rewrite decide_False by exact Hk. reflexivity.
  - unfold CreateProjectView_get_initial. py_unfold. simpl.
    rewrite Hcall. simpl. eexists _, _. split; [reflexivity|].
    split; [apply new_calls_app; reflexivity|].
    split; [reflexivity|]. intros k _. reflexivity.
Qed.

(** ** [UpdateProjectView.get_initial], further *)

(** X14: [UpdateProjectView.get_initial] caches nothing and fetches in
    order: every run issues the project fetch, and the quota fetch follows
    only when the project fetch succeeded; no other call is issued. *)
Theorem UpdateProjectView_get_initial_calls self s r s' :
  UpdateProjectView_get_initial self s = (r, s') ->
  let project_id := kw_tenant_id (kwargs self) in
  match tenant_get (api self) (api_log s) project_id with
  | Raise _ => new_calls s s' = [(TenantGet project_id, false)]
  | Return _ =>
      exists ok, new_calls s s' = [(TenantGet project_id, true);
                                   (TenantQuotaGet project_id, ok)]
  end.
Proof.
  unfold UpdateProjectView_get_initial. py_unfold. unfold setitem at 1.
  simpl. intros H.
  repeat (first [rewrite for_each_setitem in H | py_case];
          simpl in *; py_inv);
    try (eexists);
    (erewrite new_calls_app
       by (simpl; rewrite <- ?app_assoc; reflexivity));
    reflexivity.
Qed.

Lemma UpdateProjectView_get_initial_calls_witness :
  let self := sample_view quota_down_api spec_handle in
  let s' := State ["Unable to retrieve project details."] []
                  [(TenantGet "t1", true); (TenantQuotaGet "t1", false)]
                  None None in
  UpdateProjectView_get_initial self request_start
    = (Raise (Http302 index_url), s') /\
  exists ok, new_calls request_start s'
             = [(TenantGet "t1", true); (TenantQuotaGet "t1", ok)].
Proof.
  intros self s'.
  assert (Hrun : UpdateProjectView_get_initial self request_start
                 = (Raise (Http302 index_url), s')) by reflexivity.
  split; [exact Hrun|].
  exact (UpdateProjectView_get_initial_calls self request_start _ s' Hrun).
Defined.

(** X15: when the project fetch succeeds, the quota fetch fails and the
    error handler returns, [UpdateProjectView.get_initial] returns a
    partly filled dictionary: [name], [description] and [enabled] come from
    the fetched project, ['project_id'] is the tenant of the URL, and the
    nine quota fields are as the base class gave them. *)
Theorem UpdateProjectView_get_initial_partial self s project_info e flash :
  tenant_get (api self) (api_log s) (kw_tenant_id (kwargs self))
    = Return project_info ->
  tenant_quota_get (api self)
    (api_log s ++ [(TenantGet (kw_tenant_id (kwargs self)), true)])
    (kw_tenant_id (kwargs self)) = Raise e ->
  handle self e "Unable to retrieve project details." (Some index_url)
         (messages s) = (Return tt, flash) ->
  exists initial s',
    UpdateProjectView_get_initial self s = (Return initial, s') /\
    messages s' = flash /\
    (forall f, f ∈ PROJECT_INFO_FIELDS ->
       initial !! f = Some (getattr project_info f VNone)) /\
    initial !! "project_id" = Some (VStr (kw_tenant_id (kwargs self))) /\
    (forall f, f ∈ QUOTA_FIELDS -> initial !! f = super_get_initial self !! f).
Proof.
  intros Hinfo Hquota Hhandle.
  exists (fill_fields PROJECT_INFO_FIELDS
            (fun f => getattr project_info f VNone)
            (<["project_id" := VStr (kw_tenant_id (kwargs self))]>
               (super_get_initial self))).
  eexists. split; [|split; [|split; [|split]]].
  - unfold UpdateProjectView_get_initial. py_unfold. unfold setitem at 1.
    simpl. rewrite Hinfo. simpl. rewrite ?for_each_setitem. simpl.
    rewrite Hquota. simpl. unfold index_url in Hhandle. rewrite Hhandle.
    reflexivity.
  - reflexivity.
  - intros f Hf. rewrite lookup_fill_fields.
    rewrite decide_True by exact Hf. reflexivity.
  - rewrite lookup_fill_fields.
    rewrite decide_False by apply form_field_not_project_id.
    apply lookup_insert_eq.
  - intros f Hf. rewrite lookup_fill_fields.
    rewrite decide_False.
    + apply lookup_insert_ne. intros <-.
      apply (proj2 form_field_not_project_id). exact Hf.
    + intros Hin. exact (project_info_field_not_quota f Hin Hf).
Qed.

Lemma UpdateProjectView_get_initial_partial_witness :
  let self := sample_view quota_down_api lenient_handle in
  exists initial s',
    UpdateProjectView_get_initial self request_start = (Return initial, s') /\
    messages s' = ["Unable to retrieve project details."] /\
    (forall f, f ∈ PROJECT_INFO_FIELDS ->
       initial !! f = Some (getattr acme f VNone)) /\
    initial !! "project_id" = Some (VStr "t1") /\
    (forall f, f ∈ QUOTA_FIELDS -> initial !! f = super_get_initial self !! f).
Proof.
  intros self.
  apply (UpdateProjectView_get_initial_partial self request_start acme
           (ClientError "unavailable")
           ["Unable to retrieve project details."]);
    reflexivity.
Defined.

(** ** [AddUserView.get_form_kwargs], further *)

(** X16: when the role ids are distinct, the roles handed to the form do
    not depend on the order in which the client returned them; and every
    keyword argument of the base class other than ['roles'] is kept. *)
Theorem AddUserView_get_form_kwargs_order_independent
    self1 s1 self2 s2 roles1 roles2 :
  keystone_role_list (api self1) (api_log s1) = Return roles1 ->
  keystone_role_list (api self2) (api_log s2) = Return roles2 ->
  Permutation roles1 roles2 ->
  NoDup (map id roles1) ->
  exists kw1 kw2 s1' s2',
    AddUserView_get_form_kwargs self1 s1 = (Return kw1, s1') /\
    AddUserView_get_form_kwargs self2 s2 = (Return kw2, s2') /\
    kw1 !! "roles" = kw2 !! "roles" /\
    (forall k, k <> "roles" -> kw1 !! k = super_get_form_kwargs self1 !! k).
Proof.
  intros H1 H2 Hperm Hnd. eexists _, _, _, _.
  split; [apply AddUserView_get_form_kwargs_ok; exact H1|].
  split; [apply AddUserView_get_form_kwargs_ok; exact H2|].
  split.
  - rewrite !lookup_insert_eq. do 2 f_equal.
    apply list_sort_canonical; assumption.
  - intros k Hk. apply lookup_insert_ne. congruence.
Qed.

Lemma AddUserView_get_form_kwargs_order_independent_witness :
  exists kw1 kw2 s1' s2',
    AddUserView_get_form_kwargs (sample_view sample_api spec_handle)
      request_start = (Return kw1, s1') /\
    AddUserView_get_form_kwargs (sample_view reordered_api spec_handle)
      request_start = (Return kw2, s2') /\
    kw1 !! "roles" = kw2 !! "roles" /\
    (forall k, k <> "roles" ->
       kw1 !! k
       = super_get_form_kwargs (sample_view sample_api spec_handle) !! k).
Proof.
  apply (AddUserView_get_form_kwargs_order_independent
           (sample_view sample_api spec_handle) request_start
           (sample_view reordered_api spec_handle) request_start
           [admin_role; member_role] [member_role; admin_role]).
  - reflexivity.
  - reflexivity.
  - apply perm_swap.
  - decide_closed.
Defined.
